(** * The emergency route page: [src/app/route/page.tsx]

    A shallow embedding of the route page of the emergency-assistance client:
    the simulated route calculation, the effect that reads the URL search
    parameters, builds the user's location and launches the calculation, the
    continuation that stores its outcome, and the three-way render.

    Layout:
    - [JS]: the language primitives the page relies on (truthiness of
      nullable strings, [parseFloat], [Number.prototype.toFixed],
      [URLSearchParams.get], settled promises);
    - [Hospital], [UserLocation], [RouteInfo]: the records of [@/lib/types];
    - [simulateRouteCalculation] and the simulated catalogue;
    - [Page]: the component's state, its effect and the event loop around
      it; [RoutePage]: the component over the simulated calculation;
    - [Reading], [Spec], [Sample]: how the carried values are read in
      statements, the statements of the specification that the page is
      compared with, and sample inputs;
    - the properties, one section per topic. *)

From Stdlib Require Import ZArith QArith Qabs Lqa String Ascii List Bool Sorted Lia.
From Stdlib Require Import SpecFloat DecimalString DecimalPos DecimalN.
Import ListNotations.

Local Open Scope string_scope.
Local Open Scope Z_scope.

(* ================================================================= *)
(** ** Language primitives *)

Module JS.

(** A JavaScript Number is an IEEE-754 binary64 value.  [spec_float] is the
    Standard Library's inductive description of such values; every operation
    below is instantiated at 53 bits of precision and exponent bound 1024. *)
Definition number : Type := spec_float.

Definition prec : Z := 53.
Definition emax : Z := 1024.

Definition NaN : number := S754_nan.

(** Strings are sequences of code units; the model keeps to code units below
    256, which is what [ascii] offers.  A value of type [string | null] is an
    [option string]. *)

(** ToBoolean on [string | null]: [null] and the empty string are falsy. *)
Definition truthy (v : option string) : bool :=
  match v with
  | None => false
  | Some s => negb (s =? "")%string
  end.

(** [a || b] where [a : string | null] and [b : string]. *)
Definition orElse (a : option string) (b : string) : string :=
  match a with
  | Some s => if (s =? "")%string then b else s
  | None => b
  end.

(** *** White space *)

(** WhiteSpace and LineTerminator code units below 256: TAB, LF, VT, FF, CR,
    SP and NBSP. *)
Definition isWhiteSpace (c : ascii) : bool :=
  match nat_of_ascii c with
  | 9%nat | 10%nat | 11%nat | 12%nat | 13%nat | 32%nat | 160%nat => true
  | _ => false
  end.

(** [TrimString(s, start)]. *)
Fixpoint trimStart (s : string) : string :=
  match s with
  | String c r => if isWhiteSpace c then trimStart r else s
  | EmptyString => EmptyString
  end.

(** *** Decimal literals *)

Definition isDigit (c : ascii) : bool :=
  (48 <=? nat_of_ascii c)%nat && (nat_of_ascii c <=? 57)%nat.

Definition digitValue (c : ascii) : Z := Z.of_nat (nat_of_ascii c) - 48.

(** The longest run of DecimalDigits at the head of [s]: its value on top of
    the accumulator [acc], how many digits were read, and what follows. *)
Fixpoint scanDigits (s : string) (acc : Z) (n : nat) : Z * nat * string :=
  match s with
  | String c r =>
      if isDigit c then scanDigits r (10 * acc + digitValue c) (S n)
      else (acc, n, s)
  | EmptyString => (acc, n, s)
  end.

(** An optional sign: [true] for [-]. *)
Definition scanSign (s : string) : bool * string :=
  match s with
  | String "-" r => (true, r)
  | String "+" r => (false, r)
  | _ => (false, s)
  end.

(** ExponentPart, if one starts [s]: the indicator [e] or [E], an optional
    sign and at least one digit; its value and what follows it.  A malformed
    exponent is not part of the literal: the value is 0 and nothing is
    consumed. *)
Definition scanExponent (s : string) : Z * string :=
  match s with
  | String c r =>
      if ((c =? "e") || (c =? "E"))%char then
        let '(neg, r') := scanSign r in
        let '(v, n, rest) := scanDigits r' 0 0 in
        match n with
        | O => (0, s)
        | S _ => (if neg then - v else v, rest)
        end
      else (0, s)
  | EmptyString => (0, s)
  end.

(** The mathematical value of a StrDecimalLiteral: [Infinity] with its sign,
    or [(-1)^neg * mant * 10^exp10] with [mant >= 0]. *)
Inductive StrDecimal : Type :=
| LitInfinity (neg : bool)
| LitDecimal (neg : bool) (mant : Z) (exp10 : Z).

(** The longest prefix of [s] that is a StrDecimalLiteral, if there is one,
    and the text after it: [Infinity], [digits . digits? exponent?],
    [. digits exponent?] or [digits exponent?], each after an optional
    sign. *)
Definition longestLiteral (s : string) : option (StrDecimal * string) :=
  let '(neg, r) := scanSign s in
  if String.prefix "Infinity" r then
    Some (LitInfinity neg, substring 8 (String.length r - 8) r)
  else
    let '(i, ni, r1) := scanDigits r 0 0 in
    match r1 with
    | String "." r2 =>
        let '(m, nf, r3) := scanDigits r2 i 0 in
        match ni, nf with
        | O, O => None
        | _, _ =>
            let '(x, rest) := scanExponent r3 in
            Some (LitDecimal neg m (x - Z.of_nat nf), rest)
        end
    | _ =>
        match ni with
        | O => None
        | S _ =>
            let '(x, rest) := scanExponent r1 in
            Some (LitDecimal neg i x, rest)
        end
    end.

(** The exact value of a decimal literal, as a rational. *)
Definition mathematicalValue (neg : bool) (mant exp10 : Z) : Q :=
  let m := if neg then - mant else mant in
  if 0 <=? exp10 then inject_Z (m * 10 ^ exp10)
  else m # Z.to_pos (10 ^ (- exp10)).

(** The Number value for [(-1)^neg * mant * 10^exp10]: round to nearest,
    ties to even; a zero keeps the sign of the literal. *)
Definition roundMV (neg : bool) (mant exp10 : Z) : number :=
  match mant with
  | Zpos p =>
      if 0 <=? exp10 then
        binary_normalize prec emax
          ((if neg then Zneg p else Zpos p) * 10 ^ exp10) 0 false
      else
        SFdiv prec emax (S754_finite neg p 0)
          (S754_finite false (Z.to_pos (10 ^ (- exp10))) 0)
  | _ => S754_zero neg
  end.

(** [parseFloat(s)]. *)
Definition parseFloat (s : string) : number :=
  match longestLiteral (trimStart s) with
  | None => NaN
  | Some (LitInfinity neg, _) => S754_infinity neg
  | Some (LitDecimal neg mant exp10, _) => roundMV neg mant exp10
  end.

(** A numeric literal of the program text denotes the Number nearest to it. *)
Definition literal (s : string) : number := parseFloat s.

(** *** Number.prototype.toFixed *)

(** The decimal digits of [n >= 0], ["0"] for zero. *)
Definition decimalDigits (n : Z) : string :=
  NilZero.string_of_uint (N.to_uint (Z.to_N n)).

Fixpoint zeros (k : nat) : string :=
  match k with
  | O => ""
  | S k' => String "0" (zeros k')
  end.

(** Steps 9-10 of toFixed once the integer [n] is chosen: pad with zeros up
    to [f + 1] digits and put the point before the last [f] of them. *)
Definition pointBefore (f : nat) (n : Z) : string :=
  let m := decimalDigits n in
  match f with
  | O => m
  | S _ =>
      let k := String.length m in
      let m' := if (k <=? f)%nat then zeros (S f - k) ++ m else m in
      let k' := String.length m' in
      substring 0 (k' - f) m' ++ "." ++ substring (k' - f) f m'
  end.

(** The integer [n] for which [n / 10^f - m * 2^e] is as close to zero as
    possible, the larger one when there are two. *)
Definition nearestScaled (f : nat) (m : positive) (e : Z) : Z :=
  if 0 <=? e then Zpos m * 2 ^ e * 10 ^ Z.of_nat f
  else (2 * Zpos m * 10 ^ Z.of_nat f + 2 ^ (- e)) / (2 * 2 ^ (- e)).

(** [m * 2^e >= 10^21]. *)
Definition atLeast1e21 (m : positive) (e : Z) : bool :=
  if 0 <=? e then 10 ^ 21 <=? Zpos m * 2 ^ e
  else 10 ^ 21 * 2 ^ (- e) <=? Zpos m.

Section ToFixed.

(** [Number::toString(x, 10)] for a finite [x >= 10^21].  Its digits are
    the engine's choice among the shortest ones that read back as [x]; the
    page never gets there with a geographic coordinate, and the function is
    left to the engine. *)
Variable NumberToString : number -> string.

(** [x.toFixed(f)] for [0 <= f <= 100]. *)
Definition toFixed (f : nat) (x : number) : string :=
  match x with
  | S754_nan => "NaN"
  | S754_infinity false => "Infinity"
  | S754_infinity true => "-Infinity"
  | S754_zero _ => pointBefore f 0
  | S754_finite s m e =>
      (if s then "-" else "") ++
      (if atLeast1e21 m e then NumberToString (S754_finite false m e)
       else pointBefore f (nearestScaled f m e))
  end.

End ToFixed.

(** *** Conversions and URLSearchParams *)

(** ToString on [string | null]. *)
Definition ToString (v : option string) : string :=
  match v with
  | Some s => s
  | None => "null"
  end.


Definition URLSearchParams : Type := list (string * string).

(** [searchParams.get(name)]: the first value given for [name], or [null]. *)
Fixpoint get (searchParams : URLSearchParams) (name : string) : option string :=
  match searchParams with
  | [] => None
  | (k, v) :: rest => if (k =? name)%string then Some v else get rest name
  end.

(** *** Promises *)

(** How a promise settles. *)
Inductive Settled (A : Type) : Type :=
| Fulfilled (value : A)
| Rejected (reason : string).

Arguments Fulfilled {A} value.
Arguments Rejected {A} reason.

(** A promise that settles [delayMs] milliseconds after it was created. *)
Record Promise (A : Type) : Type := mkPromise
  { delayMs : Z;
    settled : Settled A }.

Arguments mkPromise {A} delayMs settled.
Arguments delayMs {A} p.
Arguments settled {A} p.

End JS.


(* ================================================================= *)
(** ** The records of [@/lib/types]

    The type declarations are imported by the page and are not part of the
    file itself; the records below carry the fields that the page's object
    literals and property accesses use. *)

Module Hospital.
Record t : Type := make
  { id : string;
    name : string;
    address : string;
    phone : option string;
    latitude : JS.number;
    longitude : JS.number }.
End Hospital.

Module UserLocation.
Record t : Type := make
  { latitude : option JS.number;
    longitude : option JS.number;
    address : string }.
End UserLocation.

Definition EmergencyCategory : Type := string.

Module RouteInfo.
(** [hospital] is filled from an array access, which yields [undefined]
    ([None]) beyond the end of the array. *)
Record t : Type := make
  { id : string;
    hospital : option Hospital.t;
    distance : string;
    time : string;
    trafficStatus : option string;
    isPrimary : bool }.
End RouteInfo.

(* ================================================================= *)
(** ** Simulation data and the simulated route calculation *)

Definition SIMULATED_HOSPITALS : list Hospital.t :=
  [ Hospital.make "hosp1" "City General Hospital" "123 Main St, Cityville"
      (Some "555-1234") (JS.literal "34.0522") (SFopp (JS.literal "118.2437"));
    Hospital.make "hosp2" "St. Luke's Medical Center" "456 Oak Ave, Cityville"
      (Some "555-5678") (JS.literal "34.0580") (SFopp (JS.literal "118.2500"));
    Hospital.make "hosp3" "County Urgent Care" "789 Pine Rd, Suburbia"
      (Some "555-9101") (JS.literal "34.0450") (SFopp (JS.literal "118.2300")) ].

(** The function waits 1500 ms and then returns three predefined routes; it
    reads neither of its arguments and never rejects. *)
Definition simulateRouteCalculation
    (location : UserLocation.t) (emergencyType : EmergencyCategory)
  : JS.Promise (list RouteInfo.t) :=
  let routes :=
    [ RouteInfo.make "route1" (nth_error SIMULATED_HOSPITALS 0)
        "3.2 km" "8 mins" (Some "Light traffic") true;
      RouteInfo.make "route2" (nth_error SIMULATED_HOSPITALS 1)
        "4.1 km" "10 mins" (Some "Moderate traffic") false;
      RouteInfo.make "route3" (nth_error SIMULATED_HOSPITALS 2)
        "5.5 km" "12 mins" (Some "Light traffic") false ] in
  JS.mkPromise 1500 (JS.Fulfilled routes).

(* ================================================================= *)
(** ** The page component *)

Module Page.

Import JS.

Record Toast : Type := mkToast
  { title : string;
    description : string;
    variant : option string }.

(** The five [useState] cells. *)
Record State : Type := mkState
  { routes : list RouteInfo.t;
    isLoading : bool;
    error : option string;
    userLocation : option UserLocation.t;
    emergencyType : option EmergencyCategory }.

Definition initialState : State :=
  {| routes := [];
     isLoading := true;
     error := None;
     userLocation := None;
     emergencyType := None |}.

(** The calls through which the effect acts on the outside: the state
    setters, [toast] and [console.error]. *)
Inductive Call : Type :=
| setRoutes (v : list RouteInfo.t)
| setIsLoading (v : bool)
| setError (v : option string)
| setUserLocation (v : UserLocation.t)
| setEmergencyType (v : EmergencyCategory)
| toast (t : Toast)
| consoleError (label reason : string).

Definition perform (st : State) (c : Call) : State :=
  match c with
  | setRoutes v =>
      mkState v (isLoading st) (error st) (userLocation st) (emergencyType st)
  | setIsLoading v =>
      mkState (routes st) v (error st) (userLocation st) (emergencyType st)
  | setError v =>
      mkState (routes st) (isLoading st) v (userLocation st) (emergencyType st)
  | setUserLocation v =>
      mkState (routes st) (isLoading st) (error st) (Some v) (emergencyType st)
  | setEmergencyType v =>
      mkState (routes st) (isLoading st) (error st) (userLocation st) (Some v)
  | toast _ | consoleError _ _ => st
  end.

Definition performAll (st : State) (cs : list Call) : State :=
  fold_left perform cs st.

(** The messages the page stores in [error]. *)
Definition typeMissing : string := "Emergency type is missing.".
Definition locationMissing : string := "User location is missing.".
Definition noRoutes : string :=
  "Could not find any nearby medical facilities or routes.".
Definition calculationFailed : string :=
  "Failed to calculate routes. Please try again later.".

Definition destructive (title description : string) : Call :=
  toast (mkToast title description (Some "destructive")).

Section Component.

(** See [JS.toFixed]. *)
Variable NumberToString : number -> string.

(** The awaited route calculation.  The page calls
    [simulateRouteCalculation]; the handler around the call also provides
    for an empty result and for a rejection, which the simulation never
    produces, so the calculation is a parameter here and [RoutePage]-level
    statements instantiate it. *)
Variable calculate :
  UserLocation.t -> EmergencyCategory -> Promise (list RouteInfo.t).

(** Lines 86-91: the location built from the [lat], [lng] and [address]
    parameters, [null] when they give none. *)
Definition locationData (lat lng address : option string)
  : option UserLocation.t :=
  if truthy lat && truthy lng then
    Some (UserLocation.make
            (Some (parseFloat (ToString lat)))
            (Some (parseFloat (ToString lng)))
            (orElse address
               ("Coords: "
                ++ toFixed NumberToString 4 (parseFloat (ToString lat))
                ++ ", "
                ++ toFixed NumberToString 4 (parseFloat (ToString lng)))))
  else if truthy address then
    Some (UserLocation.make None None (ToString address))
  else None.

(** [fetchRoutes] up to its [await]. *)
Definition fetchRoutesStart : list Call :=
  [setIsLoading true; setError None].

(** [fetchRoutes] from the [await] on: the [try] body after the call, the
    [catch] clause, and the [finally] clause. *)
Definition fetchRoutesResume (outcome : Settled (list RouteInfo.t))
  : list Call :=
  match outcome with
  | Fulfilled calculatedRoutes =>
      ((if (List.length calculatedRoutes =? 0)%nat then
          [setError (Some noRoutes);
           destructive "No Routes"
             "Could not find routes. Try expanding search or checking location."]
        else [])
       ++ [setRoutes calculatedRoutes]
       ++ [setIsLoading false])%list
  | Rejected err =>
      [consoleError "Route calculation error:" err;
       setError (Some calculationFailed);
       destructive "Routing Error" "Failed to calculate routes.";
       setIsLoading false]
  end.

(** The body of the effect: the calls it makes before returning, and the
    promise it leaves pending, if any. *)
Definition effect (searchParams : URLSearchParams)
  : list Call * option (Promise (list RouteInfo.t)) :=
  let lat := get searchParams "lat" in
  let lng := get searchParams "lng" in
  let address := get searchParams "address" in
  let type := get searchParams "emergencyType" in
  if negb (truthy type) then
    ([setError (Some typeMissing);
      setIsLoading false;
      destructive "Error" "Emergency type missing. Please go back."],
     None)
  else
    match locationData lat lng address with
    | None =>
        ([setEmergencyType (ToString type);
          setError (Some locationMissing);
          setIsLoading false;
          destructive "Error" "Location missing. Please go back."],
         None)
    | Some location =>
        (([setEmergencyType (ToString type); setUserLocation location]
          ++ fetchRoutesStart)%list,
         Some (calculate location (ToString type)))
    end.

(** *** The event loop around the component

    The effect runs when the page mounts and again whenever the search
    parameters change; a pending calculation resumes [fetchRoutes] when it
    settles.  [submitted] counts the runs of the effect and numbers the
    requests; the page itself keeps no such number. *)
Record World : Type := mkWorld
  { page : State;
    calls : list Call;
    inflight : list (nat * Promise (list RouteInfo.t));
    submitted : nat }.

Definition initialWorld : World :=
  {| page := initialState; calls := []; inflight := []; submitted := 0 |}.

Inductive Event : Type :=
| Navigate (searchParams : URLSearchParams)
| Settle (request : nat).

(** Takes the pending calculation of request [r] out of the list. *)
Fixpoint take (r : nat) (l : list (nat * Promise (list RouteInfo.t)))
  : option (Promise (list RouteInfo.t)
            * list (nat * Promise (list RouteInfo.t))) :=
  match l with
  | [] => None
  | (k, p) :: rest =>
      if (k =? r)%nat then Some (p, rest)
      else match take r rest with
           | Some (q, rest') => Some (q, (k, p) :: rest')
           | None => None
           end
  end.

(** One event; [None] when request [r] has nothing pending. *)
Definition step (w : World) (ev : Event) : option World :=
  match ev with
  | Navigate searchParams =>
      let '(cs, launched) := effect searchParams in
      Some {| page := performAll (page w) cs;
              calls := (calls w ++ cs)%list;
              inflight :=
                (inflight w ++
                 match launched with
                 | Some p => [(submitted w, p)]
                 | None => []
                 end)%list;
              submitted := S (submitted w) |}
  | Settle r =>
      match take r (inflight w) with
      | Some (p, rest) =>
          let cs := fetchRoutesResume (settled p) in
          Some {| page := performAll (page w) cs;
                  calls := (calls w ++ cs)%list;
                  inflight := rest;
                  submitted := submitted w |}
      | None => None
      end
  end.

Fixpoint run (w : World) (evs : list Event) : option World :=
  match evs with
  | [] => Some w
  | ev :: rest =>
      match step w ev with
      | Some w' => run w' rest
      | None => None
      end
  end.

(** The request submitted last, if any was. *)
Definition latest (w : World) : option nat :=
  match submitted w with
  | O => None
  | S n => Some n
  end.

End Component.

(** *** Rendering (lines 123-169) *)

Definition primaryRoute (routes : list RouteInfo.t) : option RouteInfo.t :=
  find (fun r => RouteInfo.isPrimary r) routes.

Definition alternativeRoutes (routes : list RouteInfo.t) : list RouteInfo.t :=
  filter (fun r => negb (RouteInfo.isPrimary r)) routes.

(** What the component returns: the spinner, the error screen with its
    message, or the primary route card and the alternative route cards. *)
Inductive View : Type :=
| Spinner
| ErrorScreen (message : string)
| RouteCards (primary : option RouteInfo.t) (alternatives : list RouteInfo.t).

Definition render (st : State) : View :=
  if isLoading st then Spinner
  else if truthy (error st) then ErrorScreen (ToString (error st))
  else RouteCards (primaryRoute (routes st)) (alternativeRoutes (routes st)).

End Page.

(** The page as shipped: the component over the simulated calculation. *)
Module RoutePage.

Section Shipped.
Variable NumberToString : JS.number -> string.

Definition effect := Page.effect NumberToString simulateRouteCalculation.
Definition step := Page.step NumberToString simulateRouteCalculation.
Definition run := Page.run NumberToString simulateRouteCalculation.
Definition initialWorld : Page.World := Page.initialWorld.
End Shipped.

End RoutePage.

(** The list the simulation returns; by
    [simulateRouteCalculation_settles] it is the same at every call. *)
Definition predefinedRoutes : list RouteInfo.t :=
  match JS.settled (simulateRouteCalculation (UserLocation.make None None "") "") with
  | JS.Fulfilled rs => rs
  | JS.Rejected _ => []
  end.

(** Invariant of the shipped page: the stored routes are either none or
    the predefined ones, and so is the outcome of every pending
    calculation. *)
Definition consistent (w : Page.World) : Prop :=
  (Page.routes (Page.page w) = [] \/
   Page.routes (Page.page w) = predefinedRoutes) /\
  Forall (fun i => JS.settled (snd i) = JS.Fulfilled predefinedRoutes)
    (Page.inflight w).

(* ================================================================= *)
(** ** Reading the values the page carries

    The routes carry their distance and travel time as text, and Numbers are
    binary64 values.  The functions of this module read such values back as
    exact rationals, so that statements about amounts, order and rounding can
    be made about them.  Nothing here is part of the page. *)

Module Reading.

(** The exact value of a finite Number; [NaN] and the infinities have none. *)
Definition value (x : JS.number) : option Q :=
  match x with
  | S754_zero _ => Some 0%Q
  | S754_finite s m e =>
      let z := if s then Zneg m else Zpos m in
      Some (if 0 <=? e then inject_Z (z * 2 ^ e) else z # Z.to_pos (2 ^ (- e)))
  | S754_infinity _ | S754_nan => None
  end.

(** The decimal number a text starts with, and the text after it. *)
Definition quantity (s : string) : option (Q * string) :=
  match JS.longestLiteral (JS.trimStart s) with
  | Some (JS.LitDecimal neg mant exp10, rest) =>
      Some (Qred (JS.mathematicalValue neg mant exp10), rest)
  | _ => None
  end.

(** The amount of a text made of a number and the unit text [unit]. *)
Definition amount (unit s : string) : option Q :=
  match quantity s with
  | Some (q, rest) => if (rest =? unit)%string then Some q else None
  | None => None
  end.

(** A route's distance in metres and its travel time in seconds, read from
    its [distance] ("... km") and [time] ("... mins") texts. *)
Definition distanceMeters (r : RouteInfo.t) : option Q :=
  option_map (fun km => Qred (km * 1000)) (amount " km" (RouteInfo.distance r)).

Definition durationSeconds (r : RouteInfo.t) : option Q :=
  option_map (fun mins => Qred (mins * 60)) (amount " mins" (RouteInfo.time r)).

Definition facilityId (r : RouteInfo.t) : option string :=
  option_map Hospital.id (RouteInfo.hospital r).





(** A text that is a non-negative number and nothing else. *)
Definition bareNumber (s : string) : Prop :=
  exists q, quantity s = Some (q, "") /\ (0 <= q)%Q.

(** A text that is a non-negative number followed by the unit text. *)
Definition withUnit (unit s : string) : Prop :=
  exists q, amount unit s = Some q /\ (0 <= q)%Q.

(** [n] is an integer nearest to [x * 10^4], where [x >= 0]. *)
Definition nearest4 (x : Q) (n : Z) : Prop :=
  (Qabs (inject_Z n - x * 10000) <= 1 # 2)%Q.

(** A text made of decimal digits only. *)
Fixpoint allDigits (s : string) : bool :=
  match s with
  | EmptyString => true
  | String c r => JS.isDigit c && allDigits r
  end.

(** The value of a run of digits, on top of the accumulator [acc]. *)
Fixpoint foldDigits (s : string) (acc : Z) : Z :=
  match s with
  | EmptyString => acc
  | String c r => foldDigits r (10 * acc + JS.digitValue c)
  end.

(** The text [s] is the Number [x] rounded to four decimal places: it is a
    decimal number and nothing else, it ends with a point and four digits,
    and the number it reads as is within half a unit of the fourth decimal
    of the value of [x]. *)
Definition rounded4 (x : JS.number) (s : string) : Prop :=
  exists v q a b,
    value x = Some v /\
    quantity s = Some (q, "") /\
    (Qabs (q - v) <= 1 # 20000)%Q /\
    s = a ++ "." ++ b /\
    String.length b = 4%nat /\
    allDigits b = true.

(** Geographic ranges: a finite Number whose value lies within the bounds. *)
Definition within (lo hi : Z) (x : JS.number) : bool :=
  match value x with
  | Some v => Qle_bool (inject_Z lo) v && Qle_bool v (inject_Z hi)
  | None => false
  end.

Definition validLatitude (x : JS.number) : bool := within (-90) 90 x.
Definition validLongitude (x : JS.number) : bool := within (-180) 180 x.

(** A text that is empty once white space is trimmed, or no text at all. *)
Definition blank (a : option string) : bool :=
  match a with
  | None => true
  | Some s => (JS.trimStart s =? "")%string
  end.

End Reading.


(* ================================================================= *)
(** ** Statements of the specification that are compared with the page *)

Module Spec.

Import JS Page Reading.

(** Exactly one route is primary, and it is the first one. *)
Definition onePrimaryFirst (rs : list RouteInfo.t) : Prop :=
  List.length (filter (fun r => RouteInfo.isPrimary r) rs) = 1%nat /\
  exists r rest, rs = r :: rest /\ RouteInfo.isPrimary r = true.

(** The routes the calculation returns carry distance and travel time as
    plain non-negative numbers (of metres and of seconds), with no display
    unit in the value. *)
Definition carriesPlainNumbers : Prop :=
  forall location emergencyType rs r,
    settled (simulateRouteCalculation location emergencyType) = Fulfilled rs ->
    In r rs ->
    bareNumber (RouteInfo.distance r) /\ bareNumber (RouteInfo.time r).

(** A location as the specification allows it: a coordinate pair within
    the geographic ranges, or no coordinates and an address that is not
    blank. *)
Definition wellFormed (loc : UserLocation.t) : bool :=
  match UserLocation.latitude loc, UserLocation.longitude loc with
  | Some x, Some y => validLatitude x && validLongitude y
  | None, None => negb (blank (Some (UserLocation.address loc)))
  | _, _ => false
  end.

(** A usable coordinate pair is present among the raw parameters. *)
Definition usableCoordinates (lat lng : option string) : bool :=
  match lat, lng with
  | Some la, Some ln =>
      validLatitude (parseFloat la) && validLongitude (parseFloat ln)
  | _, _ => false
  end.

(** Without usable coordinates and with a blank address no location is
    produced, and a location that is produced is well formed. *)
Definition resolvesStrictly (NumberToString : number -> string) : Prop :=
  (forall lat lng address,
      usableCoordinates lat lng = false ->
      blank address = true ->
      locationData NumberToString lat lng address = None) /\
  (forall lat lng address loc,
      locationData NumberToString lat lng address = Some loc ->
      wellFormed loc = true).

(** While the page is loading, the completion of a request other than the
    one submitted last changes neither the loading flag nor the routes. *)
Definition latestWins (NumberToString : number -> string) : Prop :=
  forall evs w r w',
    RoutePage.run NumberToString RoutePage.initialWorld evs = Some w ->
    isLoading (page w) = true ->
    latest w <> Some r ->
    RoutePage.step NumberToString w (Settle r) = Some w' ->
    isLoading (page w') = true /\ routes (page w') = routes (page w).

End Spec.

(* ================================================================= *)
(** ** Sample inputs *)

Module Sample.

Import JS Page.

(** An engine's [Number::toString] for the samples (never consulted by them). *)
Definition engine (_ : number) : string := "1e+21".

(** A calculation that finds no route. *)
Definition findsNothing (_ : UserLocation.t) (_ : EmergencyCategory)
  : Promise (list RouteInfo.t) :=
  mkPromise 1500 (Fulfilled []).

Definition cardiac : URLSearchParams :=
  [("lat", "34.0522"); ("lng", "-118.2437"); ("emergencyType", "cardiac")].

Definition trauma : URLSearchParams :=
  [("address", "456 Oak Ave, Cityville"); ("emergencyType", "trauma")].

Definition untyped : URLSearchParams :=
  [("lat", "34.0522"); ("lng", "-118.2437")].

(** The world after the events [evs], from the initial one. *)
Definition reached
    (calculate : UserLocation.t -> EmergencyCategory -> Promise (list RouteInfo.t))
    (evs : list Event) : World :=
  match run engine calculate initialWorld evs with
  | Some w => w
  | None => initialWorld
  end.

End Sample.

(* ================================================================= *)
(** ** The rest of the page: URI encoding, the map placeholder, the
    button handlers and the texts of the render *)

Module URI.

(** The characters [encodeURIComponent] leaves as they are: letters,
    digits and [- _ . ! ~ * ' ( )]. *)
Definition uriUnreserved (c : ascii) : bool :=
  let n := nat_of_ascii c in
  ((65 <=? n) && (n <=? 90))%nat
  || ((97 <=? n) && (n <=? 122))%nat
  || ((48 <=? n) && (n <=? 57))%nat
  || match n with
     | 45%nat | 95%nat | 46%nat | 33%nat | 126%nat
     | 42%nat | 39%nat | 40%nat | 41%nat => true
     | _ => false
     end.

Definition hexDigit (n : nat) : ascii :=
  nth n ["0"; "1"; "2"; "3"; "4"; "5"; "6"; "7"; "8"; "9";
         "A"; "B"; "C"; "D"; "E"; "F"]%char "0"%char.

(** An octet as [%XX]. *)
Definition percent (octet : nat) : string :=
  String "%" (String (hexDigit (octet / 16))
                (String (hexDigit (octet mod 16)) "")).

(** One code unit below 256: itself when unreserved, otherwise the octets
    of its UTF-8 form (one octet below 128, two from 128 on), each as
    [%XX]. *)
Definition encodeUnit (c : ascii) : string :=
  if uriUnreserved c then String c ""
  else
    let n := nat_of_ascii c in
    if (n <? 128)%nat then percent n
    else percent (192 + n / 64) ++ percent (128 + n mod 64).

(** [encodeURIComponent(s)]. *)
Fixpoint encodeURIComponent (s : string) : string :=
  match s with
  | EmptyString => EmptyString
  | String c r => encodeUnit c ++ encodeURIComponent r
  end.




End URI.

Module Widgets.

Import JS Page.

(** ToBoolean on a Number: zero (of either sign) and [NaN] are falsy. *)
Definition truthyNumber (x : number) : bool :=
  match x with
  | S754_zero _ | S754_nan => false
  | S754_infinity _ | S754_finite _ _ _ => true
  end.

(** What a JSX expression in child position leaves on the page: nothing
    (for [null], [undefined], [false] and the empty text), a bare text (a
    Number or a text is printed as it is), or the [span] with its text. *)
Inductive Child : Type :=
| Nothing
| Bare (text : string)
| Span (text : string).

(** A falsy Number in child position is printed: ["NaN"], or ["0"] for a
    zero of either sign. *)
Definition printFalsy (x : number) : Child :=
  match x with
  | S754_nan => Bare "NaN"
  | _ => Bare "0"
  end.

(** The three conditional lines of [RouteMapPlaceholder]. *)
Record MapLines : Type := mkMapLines
  { userLine : Child;
    addressLine : Child;
    primaryLine : Child }.

(** What happens on the page outside the component's state. *)
Inductive Action : Type :=
| assignHref (url : string)
| windowOpen (url target : string)
| raiseToast (t : Toast).

Section Engine.

(** [Number::toString(x, 10)], see [JS.toFixed]. *)
Variable NumberToString : number -> string.

(** [userLocation?.latitude && userLocation.longitude && <span>...</span>]
    (lines 48-50). *)
Definition userLineOf (userLocation : option UserLocation.t) : Child :=
  match userLocation with
  | None => Nothing
  | Some loc =>
      match UserLocation.latitude loc with
      | None => Nothing
      | Some lat =>
          if truthyNumber lat then
            match UserLocation.longitude loc with
            | None => Nothing
            | Some lng =>
                if truthyNumber lng then
                  Span ("User: " ++ toFixed NumberToString 3 lat
                        ++ ", " ++ toFixed NumberToString 3 lng)
                else printFalsy lng
            end
          else printFalsy lat
      end
  end.

(** [userLocation?.address && !userLocation.latitude && <span>...</span>]
    (lines 51-53). *)
Definition addressLineOf (userLocation : option UserLocation.t) : Child :=
  match userLocation with
  | None => Nothing
  | Some loc =>
      if (UserLocation.address loc =? "")%string then Nothing
      else
        match UserLocation.latitude loc with
        | None => Span ("User Address: " ++ UserLocation.address loc)
        | Some lat =>
            if truthyNumber lat then Nothing
            else Span ("User Address: " ++ UserLocation.address loc)
        end
  end.

(** [routes.length > 0 && <span>Primary Route to:
    {routes[0].hospital.name}</span>] (lines 54-56); [None] when reading
    [name] of an undefined hospital throws. *)
Definition primaryLineOf (routes : list RouteInfo.t) : option Child :=
  match routes with
  | [] => Some Nothing
  | r :: _ =>
      match RouteInfo.hospital r with
      | Some h => Some (Span ("Primary Route to: " ++ Hospital.name h))
      | None => None
      end
  end.

Definition RouteMapPlaceholder
    (routes : list RouteInfo.t) (userLocation : option UserLocation.t)
  : option MapLines :=
  match primaryLineOf routes with
  | Some line =>
      Some (mkMapLines (userLineOf userLocation) (addressLineOf userLocation)
              line)
  | None => None
  end.

(** Lines 126-133. *)
Definition handleCall (phoneNumber : option string) : list Action :=
  if truthy phoneNumber then
    [assignHref ("tel:" ++ ToString phoneNumber);
     raiseToast (mkToast "Calling..." ("Dialing " ++ ToString phoneNumber)
                   None)]
  else
    [raiseToast (mkToast "No Phone Number"
                   "Phone number not available for this facility."
                   (Some "destructive"))].

(** The [destination] of [handleNavigate] (lines 138-140). *)
Definition destination (hospital : Hospital.t) : string :=
  if truthyNumber (Hospital.latitude hospital)
     && truthyNumber (Hospital.longitude hospital)
  then NumberToString (Hospital.latitude hospital) ++ ","
       ++ NumberToString (Hospital.longitude hospital)
  else URI.encodeURIComponent (Hospital.address hospital).



End Engine.

(** The second line of the loading screen (line 152). *)
Definition loadingLine (st : State) : string :=
  "Finding help for '" ++ orElse (emergencyType st) "your emergency"
  ++ "' near "
  ++ orElse (option_map UserLocation.address (userLocation st))
       "your location"
  ++ "...".

(** [emergencyType && <Chatbot/>] and [userLocation && <SosButton/>]
    (lines 264-272). *)
Definition showsChatbot (st : State) : bool := truthy (emergencyType st).

Definition showsSosButton (st : State) : bool :=
  match userLocation st with
  | Some _ => true
  | None => false
  end.

(** How many route cards the page shows: the primary card, if any, and the
    alternative cards. *)
Definition cardsShown (routes : list RouteInfo.t) : nat :=
  (match primaryRoute routes with Some _ => 1 | None => 0 end
   + List.length (alternativeRoutes routes))%nat.

(** A request was accepted at some point: the page holds its emergency
    type and its location, whose label is not empty. *)
Definition requested (st : State) : Prop :=
  truthy (emergencyType st) = true /\
  exists loc,
    userLocation st = Some loc /\
    (UserLocation.address loc =? "")%string = false.

(** No request was accepted so far: nothing is pending, no route is held,
    and the page is either still as it started or on the error screen. *)
Definition unrequested (w : World) : Prop :=
  inflight w = [] /\
  routes (page w) = [] /\
  ((submitted w = 0%nat /\ page w = initialState) \/
   (isLoading (page w) = false /\ truthy (error (page w)) = true)).

(** Pending requests carry numbers below the count of submitted ones. *)
Definition numbered (w : World) : Prop :=
  Forall (fun i => (fst i < submitted w)%nat) (inflight w).

End Widgets.

(** Further sample inputs. *)
Module More.

Import JS Page.



(** The world after the events [evs] of the page over [calculate]. *)
Definition after
    (calculate : UserLocation.t -> EmergencyCategory -> Promise (list RouteInfo.t))
    (evs : list Event) : World :=
  match run Sample.engine calculate initialWorld evs with
  | Some w => w
  | None => initialWorld
  end.

End More.

(* ================================================================= *)
(** ** Properties of the primitives *)

Section Primitives.

Import JS Reading.

Lemma orElse_truthy (a : option string) (b : string) :
  truthy a = true -> orElse a b = ToString a.
Proof.
  destruct a as [s|]; simpl; [|discriminate].
  destruct (s =? "")%string; [discriminate | reflexivity].
Qed.

Lemma orElse_falsy (a : option string) (b : string) :
  truthy a = false -> orElse a b = b.
Proof.
  destruct a as [s|]; simpl; [|reflexivity].
  destruct (s =? "")%string; [reflexivity | discriminate].
Qed.

(** [parseFloat] of the empty text is [NaN]: a text that parses to a
    finite Number is not empty. *)
Lemma parseFloat_empty : parseFloat "" = NaN.
Proof. reflexivity. Qed.

Lemma value_parseFloat_nonempty (s : string) (v : Q) :
  value (parseFloat s) = Some v -> (s =? "")%string = false.
Proof.
  destruct s; [discriminate | reflexivity].
Qed.

(** *** Digits and their reading *)

Lemma digit_cases (c : ascii) :
  isDigit c = true ->
  In c ["0"; "1"; "2"; "3"; "4"; "5"; "6"; "7"; "8"; "9"]%char.
Proof.
  destruct c as [b0 b1 b2 b3 b4 b5 b6 b7].
  destruct b0, b1, b2, b3, b4, b5, b6, b7; intros H; try discriminate H;
    simpl; tauto.
Qed.

Lemma scanDigits_app (s1 s2 : string) :
  allDigits s1 = true ->
  forall acc k,
    scanDigits (s1 ++ s2) acc k
    = scanDigits s2 (foldDigits s1 acc) (k + String.length s1).
Proof.
  induction s1 as [|c r IH]; simpl; intros H acc k.
  - rewrite Nat.add_0_r. reflexivity.
  - apply andb_true_iff in H as [Hc Hr]. rewrite Hc, (IH Hr).
    f_equal. lia.
Qed.

Lemma foldDigits_app (s1 s2 : string) (acc : Z) :
  foldDigits (s1 ++ s2) acc = foldDigits s2 (foldDigits s1 acc).
Proof. revert acc. induction s1; simpl; intros; auto. Qed.

Lemma allDigits_app (s1 s2 : string) :
  allDigits (s1 ++ s2) = allDigits s1 && allDigits s2.
Proof. induction s1; simpl; auto. rewrite IHs1, andb_assoc. reflexivity. Qed.

Lemma length_append (s1 s2 : string) :
  String.length (s1 ++ s2) = (String.length s1 + String.length s2)%nat.
Proof. induction s1; simpl; auto. Qed.


Lemma usize_nb_digits (d : Decimal.uint) :
  Z.of_N (DecimalPos.Unsigned.usize d) = Z.of_nat (Decimal.nb_digits d).
Proof.
  induction d; cbn [DecimalPos.Unsigned.usize Decimal.nb_digits];
    rewrite ?N2Z.inj_succ, ?Nat2Z.inj_succ, ?IHd; reflexivity.
Qed.

Lemma of_lu_rev_cons (d tl : Decimal.uint) :
  Z.of_N (DecimalPos.Unsigned.of_lu (Decimal.revapp d tl))
  = Z.of_N (DecimalPos.Unsigned.of_lu (Decimal.rev d))
    + Z.of_N (DecimalPos.Unsigned.of_lu tl) * 10 ^ Z.of_nat (Decimal.nb_digits d).
Proof.
  rewrite DecimalPos.Unsigned.of_lu_revapp, N2Z.inj_add, N2Z.inj_mul,
    N2Z.inj_pow, usize_nb_digits.
  reflexivity.
Qed.

Lemma foldDigits_uint (d : Decimal.uint) :
  forall acc,
    foldDigits (NilEmpty.string_of_uint d) acc
    = acc * 10 ^ Z.of_nat (Decimal.nb_digits d)
      + Z.of_N (DecimalPos.Unsigned.of_lu (Decimal.rev d)).
Proof.
  induction d; intros acc;
    [ simpl; lia | .. ];
    cbn [NilEmpty.string_of_uint foldDigits Decimal.nb_digits];
    rewrite IHd; unfold Decimal.rev at 2; cbn [Decimal.revapp];
    rewrite of_lu_rev_cons, Nat2Z.inj_succ, Z.pow_succ_r by lia;
    cbn [DecimalPos.Unsigned.of_lu];
    match goal with
    | |- context [digitValue ?c] =>
        let v := eval vm_compute in (digitValue c) in
        change (digitValue c) with v
    end;
    simpl Z.of_N; ring.
Qed.

Lemma allDigits_uint (d : Decimal.uint) :
  allDigits (NilEmpty.string_of_uint d) = true.
Proof. induction d; simpl; auto. Qed.

Lemma length_uint (d : Decimal.uint) :
  String.length (NilEmpty.string_of_uint d) = Decimal.nb_digits d.
Proof. induction d; simpl; auto. Qed.

(** The digits of [n >= 0]: at least one, all decimal, and of value [n]. *)
Lemma decimalDigits_spec (n : Z) :
  0 <= n ->
  allDigits (decimalDigits n) = true /\
  (1 <= String.length (decimalDigits n))%nat /\
  forall acc,
    foldDigits (decimalDigits n) acc
    = acc * 10 ^ Z.of_nat (String.length (decimalDigits n)) + n.
Proof.
  intros Hn. unfold decimalDigits.
  pose proof (DecimalN.Unsigned.of_to (Z.to_N n)) as Hof.
  unfold N.of_uint in Hof. rewrite DecimalPos.Unsigned.of_uint_alt in Hof.
  assert (Hval : Z.of_N (DecimalPos.Unsigned.of_lu
                           (Decimal.rev (N.to_uint (Z.to_N n)))) = n)
    by (rewrite Hof; apply Z2N.id, Hn).
  clear Hof.
  destruct (N.to_uint (Z.to_N n)) as [|d|d|d|d|d|d|d|d|d|d].
  1: { simpl in Hval. subst n.
       split; [reflexivity | split; [simpl; lia|]].
       intros acc. change (NilZero.string_of_uint Decimal.Nil) with "0".
       cbn [foldDigits String.length].
       change (digitValue "0") with 0. change (10 ^ Z.of_nat 1) with 10.
       lia. }
  all: unfold NilZero.string_of_uint;
    (split; [apply allDigits_uint|]);
    (split; [rewrite length_uint; simpl; lia|]);
    intros acc; rewrite foldDigits_uint, length_uint, Hval; reflexivity.
Qed.

(** Splitting a text at position [j]. *)
Lemma substring_split (s : string) :
  forall j,
    (j <= String.length s)%nat ->
    s = substring 0 j s ++ substring j (String.length s - j) s /\
    String.length (substring 0 j s) = j.
Proof.
  induction s as [|c r IH]; intros j Hj.
  - destruct j; [split; reflexivity | simpl in Hj; lia].
  - destruct j as [|j].
    + simpl. split; [|reflexivity]. f_equal.
      destruct (IH 0%nat ltac:(lia)) as [H _].
      rewrite Nat.sub_0_r in H. destruct r; simpl in *; [reflexivity|].
      exact H.
    + simpl in Hj. destruct (IH j ltac:(lia)) as [H1 H2].
      simpl. split; [f_equal; exact H1 | f_equal; exact H2].
Qed.

Ltac by_digit_cases H :=
  apply digit_cases in H; simpl in H;
  repeat (destruct H as [<-|H]; [reflexivity|]); contradiction.

Lemma digit_not_space (c : ascii) : isDigit c = true -> isWhiteSpace c = false.
Proof. intros H. by_digit_cases H. Qed.

Lemma digit_not_sign (c : ascii) (r : string) :
  isDigit c = true -> scanSign (String c r) = (false, String c r).
Proof. intros H. by_digit_cases H. Qed.

Lemma digit_not_Infinity (c : ascii) (r : string) :
  isDigit c = true -> String.prefix "Infinity" (String c r) = false.
Proof. intros H. by_digit_cases H. Qed.

Lemma append_empty (s : string) : s ++ "" = s.
Proof. induction s; simpl; congruence. Qed.

(** Reading back digits, a point and digits, with or without a sign. *)
Lemma quantity_point (neg : bool) (a b : string) :
  allDigits a = true ->
  allDigits b = true ->
  (1 <= String.length a)%nat ->
  quantity ((if neg then "-" else "") ++ a ++ "." ++ b)
  = Some (Qred (mathematicalValue neg (foldDigits (a ++ b) 0)
                  (- Z.of_nat (String.length b))), "").
Proof.
  intros Ha Hb Hlen.
  destruct a as [|c a']; [simpl in Hlen; lia|].
  pose proof Ha as Hc. simpl in Hc. apply andb_true_iff in Hc as [Hc _].
  assert (Hlit : longestLiteral ((if neg then "-" else "")
                                 ++ String c a' ++ "." ++ b)
                 = Some (LitDecimal neg (foldDigits (String c a' ++ b) 0)
                           (- Z.of_nat (String.length b)), "")).
  { unfold longestLiteral.
    assert (Hs : scanSign ((if neg then "-" else "") ++ String c a' ++ "." ++ b)
                 = (neg, String c a' ++ "." ++ b)).
    { destruct neg; [reflexivity|]. apply digit_not_sign, Hc. }
    rewrite Hs.
    change (String c a' ++ "." ++ b) with (String c (a' ++ "." ++ b)) at 1.
    rewrite (digit_not_Infinity c _ Hc).
    rewrite (scanDigits_app (String c a') ("." ++ b) Ha).
    change (scanDigits ("." ++ b) ?x ?y) with (x, y, String "." b).
    cbv iota beta.
    rewrite <- (append_empty b) at 1.
    rewrite (scanDigits_app b "" Hb). cbn [scanDigits].
    cbn [String.length Nat.add scanExponent].
    rewrite foldDigits_app.
    destruct (String.length b); reflexivity. }
  unfold quantity.
  assert (Ht : trimStart ((if neg then "-" else "") ++ String c a' ++ "." ++ b)
               = (if neg then "-" else "") ++ String c a' ++ "." ++ b).
  { destruct neg; [reflexivity|]. simpl. rewrite (digit_not_space c Hc).
    reflexivity. }
  rewrite Ht, Hlit. reflexivity.
Qed.

Lemma zeros_spec (k : nat) :
  allDigits (zeros k) = true /\ String.length (zeros k) = k /\
  foldDigits (zeros k) 0 = 0.
Proof.
  induction k as [|k (H1 & H2 & H3)]; [repeat split|].
  simpl. rewrite H1, H2. repeat split. exact H3.
Qed.

(** The shape of [toFixed]'s digits for four decimals: digits, the point and
    four digits, which together are the digits of [n]. *)
Lemma pointBefore_shape (n : Z) :
  0 <= n ->
  exists a b,
    pointBefore 4 n = a ++ "." ++ b /\
    allDigits a = true /\ allDigits b = true /\
    (1 <= String.length a)%nat /\ String.length b = 4%nat /\
    foldDigits (a ++ b) 0 = n.
Proof.
  intros Hn. destruct (decimalDigits_spec n Hn) as (Hd & Hl & Hv).
  unfold pointBefore. set (m := decimalDigits n) in *.
  set (m' := if (String.length m <=? 4)%nat
             then zeros (5 - String.length m) ++ m else m).
  assert (Hm' : allDigits m' = true /\ (5 <= String.length m')%nat /\
                foldDigits m' 0 = n).
  { unfold m'. destruct (Nat.leb_spec (String.length m) 4) as [Hk|Hk].
    - destruct (zeros_spec (5 - String.length m)) as (Z1 & Z2 & Z3).
      rewrite allDigits_app, length_append, foldDigits_app, Z1, Z2, Z3, Hd, Hv.
      repeat split; lia.
    - rewrite Hd, Hv. repeat split; lia. }
  destruct Hm' as (Hd' & Hl' & Hv').
  destruct (substring_split m' (String.length m' - 4) ltac:(lia)) as [Hs Hj].
  replace (String.length m' - (String.length m' - 4))%nat with 4%nat in Hs
    by lia.
  set (a := substring 0 (String.length m' - 4) m') in *.
  set (b := substring (String.length m' - 4) 4 m') in *.
  assert (Hlen : String.length m' = (String.length a + String.length b)%nat)
    by (rewrite Hs at 1; apply length_append).
  rewrite Hs, allDigits_app in Hd'. apply andb_true_iff in Hd' as [Da Db].
  exists a, b. repeat split; try assumption; try lia.
  rewrite <- Hs. exact Hv'.
Qed.

Lemma rounded_value (neg : bool) (n : Z) (v : Q) :
  0 <= n ->
  (0 <= v)%Q ->
  (Qabs (inject_Z n - v * 10000) <= 1 # 2)%Q ->
  (Qabs (Qred (mathematicalValue neg n (- Z.of_nat 4))
         - (if neg then - v else v)) <= 1 # 20000)%Q.
Proof.
  intros Hn Hv H. rewrite Qred_correct.
  apply Qabs_Qle_condition in H. destruct H as [H1 H2].
  apply Qabs_Qle_condition.
  unfold mathematicalValue. change (0 <=? - Z.of_nat 4) with false.
  cbv iota. change (Z.to_pos (10 ^ (- - Z.of_nat 4))) with 10000%positive.
  assert (E : forall z, (z # 10000 == inject_Z z * (1 # 10000))%Q).
  { intros z. unfold Qeq, Qmult, inject_Z. simpl. lia. }
  destruct neg; rewrite E.
  - rewrite inject_Z_opp. split; lra.
  - split; lra.
Qed.

(** The integer chosen by [toFixed] is nearest to the scaled value. *)
Lemma nearestScaled_nearest (m : positive) (e : Z) (v : Q) :
  value (S754_finite false m e) = Some v ->
  nearest4 v (nearestScaled 4 m e).
Proof.
  unfold value, nearest4, nearestScaled. intros Hv. injection Hv as <-.
  destruct (0 <=? e) eqn:He.
  - unfold Qle, Qabs, Qminus, Qplus, Qopp, Qmult, inject_Z. simpl.
    replace (Z.pos m * 2 ^ e * 10000 * 1 + - (Z.pos m * 2 ^ e * 10000) * 1)
      with 0 by ring.
    simpl. lia.
  - apply Z.leb_gt in He.
    assert (Hd : 0 < 2 ^ (- e)) by (apply Z.pow_pos_nonneg; lia).
    set (d := 2 ^ (- e)) in *.
    set (a := 2 * Z.pos m * 10 ^ Z.of_nat 4 + d).
    assert (Hdiv : 2 * d * (a / (2 * d)) <= a < 2 * d * (a / (2 * d)) + 2 * d).
    { pose proof (Z.mul_div_le a (2 * d) ltac:(lia)).
      pose proof (Z.mul_succ_div_gt a (2 * d) ltac:(lia)). lia. }
    set (n := a / (2 * d)) in *.
    change (10 ^ Z.of_nat 4) with 10000 in a.
    unfold Qle, Qabs, Qminus, Qplus, Qopp, Qmult, inject_Z. simpl.
    rewrite Pos.mul_1_r, Z2Pos.id by exact Hd.
    subst a. lia.
Qed.

(** A finite Number within bounds that are below [10^21] in magnitude never
    takes the branch of [toFixed] for large Numbers. *)
Lemma within_below_1e21 (lo hi : Z) (s : bool) (m : positive) (e : Z) :
  - 10 ^ 21 < lo -> hi < 10 ^ 21 ->
  within lo hi (S754_finite s m e) = true ->
  atLeast1e21 m e = false.
Proof.
  intros Hlo Hhi. unfold within, value, atLeast1e21.
  destruct (0 <=? e) eqn:He; intros H;
    apply andb_true_iff in H as [H1 H2];
    apply Qle_bool_iff in H1; apply Qle_bool_iff in H2;
    unfold Qle, inject_Z in H1, H2; simpl in H1, H2; apply Z.leb_gt.
  - destruct s; lia.
  - apply Z.leb_gt in He.
    assert (Hd : 0 < 2 ^ (- e)) by (apply Z.pow_pos_nonneg; lia).
    rewrite Z2Pos.id in H1, H2 by exact Hd.
    destruct s; nia.
Qed.

Lemma nearestScaled_nonneg (f : nat) (m : positive) (e : Z) :
  0 <= nearestScaled f m e.
Proof.
  unfold nearestScaled. destruct (0 <=? e) eqn:He.
  - apply Z.leb_le in He.
    pose proof (Z.pow_nonneg 2 e ltac:(lia)).
    pose proof (Z.pow_nonneg 10 (Z.of_nat f) ltac:(lia)). nia.
  - apply Z.leb_gt in He.
    pose proof (Z.pow_pos_nonneg 2 (- e) ltac:(lia) ltac:(lia)).
    pose proof (Z.pow_nonneg 10 (Z.of_nat f) ltac:(lia)).
    apply Z.div_pos; nia.
Qed.

(** The value of a finite Number is, up to its sign, the value of its
    magnitude, which is not negative. *)
Lemma value_sign (s : bool) (m : positive) (e : Z) :
  exists v w,
    value (S754_finite false m e) = Some v /\
    value (S754_finite s m e) = Some w /\
    (0 <= v)%Q /\
    (w == if s then - v else v)%Q.
Proof.
  unfold value. eexists _, _. split; [reflexivity | split; [reflexivity|]].
  destruct (0 <=? e) eqn:He.
  - apply Z.leb_le in He.
    pose proof (Z.pow_pos_nonneg 2 e ltac:(lia) He) as Hp. split.
    + unfold Qle, inject_Z. cbn [Qnum Qden]. nia.
    + destruct s; [|reflexivity].
      unfold Qeq, Qopp, inject_Z. cbn [Qnum Qden]. nia.
  - split.
    + unfold Qle. cbn [Qnum Qden]. lia.
    + destruct s; reflexivity.
Qed.

(** [toFixed(4)] of a finite Number below [10^21] in magnitude is that
    Number rounded to four decimal places, whatever the engine does for
    large Numbers. *)
Lemma toFixed_rounded4 (NumberToString : number -> string)
      (lo hi : Z) (x : number) :
  - 10 ^ 21 < lo -> hi < 10 ^ 21 ->
  within lo hi x = true ->
  rounded4 x (toFixed NumberToString 4 x).
Proof.
  intros Hlo Hhi Hx. destruct x as [s| s | |s m e]; try discriminate.
  - exists 0%Q, 0%Q, "0", "0000". repeat split. discriminate.
  - pose proof (within_below_1e21 lo hi s m e Hlo Hhi Hx) as Hbig.
    destruct (value_sign s m e) as (v & w & Hv & Hw & Hv0 & Hwv).
    pose proof (nearestScaled_nonneg 4 m e) as Hn.
    pose proof (nearestScaled_nearest m e v Hv) as Hnear.
    destruct (pointBefore_shape _ Hn)
      as (a & b & Hp & Da & Db & La & Lb & Hf).
    assert (Htxt : toFixed NumberToString 4 (S754_finite s m e)
                   = (if s then "-" else "") ++ a ++ "." ++ b).
    { unfold toFixed. rewrite Hbig, Hp. reflexivity. }
    exists w, (Qred (mathematicalValue s (nearestScaled 4 m e) (- Z.of_nat 4))),
      ((if s then "-" else "") ++ a), b.
    split; [exact Hw|]. split.
    { rewrite Htxt, (quantity_point s a b Da Db La), Hf, Lb. reflexivity. }
    split.
    { rewrite Hwv. apply rounded_value; assumption. }
    split; [|split; assumption].
    rewrite Htxt. destruct s; reflexivity.
Qed.

End Primitives.

(* ================================================================= *)
(** ** The simulated calculation *)

Section Simulation.

Import JS Reading Spec.


Lemma simulateRouteCalculation_settles
      (location : UserLocation.t) (emergencyType : EmergencyCategory) :
  simulateRouteCalculation location emergencyType
  = mkPromise 1500 (Fulfilled predefinedRoutes).
Proof. reflexivity. Qed.




Lemma predefinedRoutes_onePrimaryFirst : onePrimaryFirst predefinedRoutes.
Proof.
  split; [reflexivity|].
  unfold predefinedRoutes. simpl. eexists _, _. split; reflexivity.
Qed.

(** C10: the result of the route calculation does not depend on its
    inputs.  Any two calls, whatever their locations and emergency
    categories, return the same promise; it is fulfilled with the routes
    [route1], [route2], [route3] to [hosp1], [hosp2], [hosp3] in this
    order, the first one primary and the others not. *)
Theorem simulateRouteCalculation_constant :
  forall (location1 location2 : UserLocation.t)
         (emergencyType1 emergencyType2 : EmergencyCategory),
    simulateRouteCalculation location1 emergencyType1
    = simulateRouteCalculation location2 emergencyType2 /\
    exists rs,
      settled (simulateRouteCalculation location1 emergencyType1)
      = Fulfilled rs /\
      map (fun r => (RouteInfo.id r, facilityId r, RouteInfo.isPrimary r)) rs
      = [ ("route1", Some "hosp1", true);
          ("route2", Some "hosp2", false);
          ("route3", Some "hosp3", false) ].
Proof.
  intros. split; [reflexivity|].
  exists predefinedRoutes. split; reflexivity.
Qed.

End Simulation.


(* ================================================================= *)
(** ** The component and its event loop *)

Section EventLoop.

Import JS Page Reading Spec.

Variable NumberToString : number -> string.
Variable calculate :
  UserLocation.t -> EmergencyCategory -> Promise (list RouteInfo.t).

Lemma take_In (r : nat) (l : list (nat * Promise (list RouteInfo.t)))
      (p : Promise (list RouteInfo.t)) (rest : list _) :
  take r l = Some (p, rest) ->
  In (r, p) l /\ forall x, In x rest -> In x l.
Proof.
  revert p rest. induction l as [|[k q] l IH]; intros p rest; simpl.
  - discriminate.
  - destruct (k =? r)%nat eqn:Hk.
    + intros [= <- <-]. apply Nat.eqb_eq in Hk. subst k.
      split; [left; reflexivity | intros x Hx; right; exact Hx].
    + destruct (take r l) as [[q' rest']|]; [|discriminate].
      intros [= <- <-]. destruct (IH q' rest' eq_refl) as [H1 H2].
      split; [right; exact H1|].
      intros x [<-|Hx]; [left; reflexivity | right; apply H2, Hx].
Qed.

(** The effect never touches [routes]. *)
Lemma effect_keeps_routes (st : State) (searchParams : URLSearchParams) :
  routes (performAll st (fst (effect NumberToString calculate searchParams)))
  = routes st.
Proof.
  unfold effect.
  destruct (truthy (get searchParams "emergencyType")); simpl;
    [|reflexivity].
  destruct (locationData _ _ _ _); reflexivity.
Qed.

(** What the effect leaves pending is a call of the calculation. *)
Lemma effect_launches (searchParams : URLSearchParams)
      (p : Promise (list RouteInfo.t)) :
  snd (effect NumberToString calculate searchParams) = Some p ->
  exists location emergencyType, p = calculate location emergencyType.
Proof.
  unfold effect.
  destruct (truthy (get searchParams "emergencyType")); simpl;
    [|discriminate].
  destruct (locationData _ _ _ _) as [loc|]; simpl; [|discriminate].
  intros [= <-]. eauto.
Qed.

(** After [fetchRoutes] resumes, the page is no longer loading, and a
    fulfilled calculation has its routes stored. *)
Lemma resume_not_loading (st : State) (o : Settled (list RouteInfo.t)) :
  isLoading (performAll st (fetchRoutesResume o)) = false.
Proof.
  destruct o as [rs|err]; [|reflexivity].
  unfold fetchRoutesResume.
  destruct (List.length rs =? 0)%nat; reflexivity.
Qed.

Lemma resume_stores_routes (st : State) (rs : list RouteInfo.t) :
  routes (performAll st (fetchRoutesResume (Fulfilled rs))) = rs.
Proof.
  unfold fetchRoutesResume.
  destruct (List.length rs =? 0)%nat; reflexivity.
Qed.

Lemma resume_error_nonempty (st : State) (rs : list RouteInfo.t) :
  rs <> [] ->
  error (performAll st (fetchRoutesResume (Fulfilled rs))) = error st.
Proof.
  intros Hrs. destruct rs; [contradiction | reflexivity].
Qed.

End EventLoop.

(** *** The page as shipped *)

Section ShippedPage.

Import JS Page Reading Spec.

Variable NumberToString : number -> string.


Lemma initial_consistent : consistent RoutePage.initialWorld.
Proof. split; [left; reflexivity | constructor]. Qed.

Lemma step_consistent (w w' : World) (ev : Event) :
  consistent w ->
  RoutePage.step NumberToString w ev = Some w' ->
  consistent w'.
Proof.
  intros [Hr Hp]. unfold RoutePage.step, step. destruct ev as [sp|r].
  - pose proof (effect_keeps_routes NumberToString simulateRouteCalculation
                  (page w) sp) as Hk.
    pose proof (effect_launches NumberToString simulateRouteCalculation sp)
      as Hl.
    destruct (effect NumberToString simulateRouteCalculation sp)
      as [cs launched].
    simpl in Hk, Hl. intros [= <-]. split; simpl.
    + rewrite Hk. exact Hr.
    + apply Forall_app. split; [exact Hp|].
      destruct launched as [p|]; [|constructor].
      destruct (Hl p eq_refl) as (loc & ty & ->).
      constructor; [reflexivity | constructor].
  - destruct (take r (inflight w)) as [[p rest]|] eqn:Ht; [|discriminate].
    intros [= <-]. destruct (take_In r _ p rest Ht) as [Hin Hrest].
    rewrite Forall_forall in Hp. split; simpl.
    + right. pose proof (Hp _ Hin) as Hs. simpl in Hs. rewrite Hs.
      apply resume_stores_routes.
    + apply Forall_forall. intros x Hx. apply Hp, Hrest, Hx.
Qed.

Lemma run_consistent (evs : list Event) :
  forall w w',
    consistent w ->
    RoutePage.run NumberToString w evs = Some w' ->
    consistent w'.
Proof.
  induction evs as [|ev evs IH]; intros w w' Hw; simpl.
  - intros [= <-]. exact Hw.
  - unfold RoutePage.run in *. simpl.
    destruct (step NumberToString simulateRouteCalculation w ev)
      as [w1|] eqn:Hs; [|discriminate].
    apply IH. apply (step_consistent w w1 ev Hw Hs).
Qed.

(** Whatever requests were made and in whatever order they completed, the
    page stores no routes or the predefined ones. *)
Lemma reachable_routes (evs : list Event) (w : World) :
  RoutePage.run NumberToString RoutePage.initialWorld evs = Some w ->
  routes (page w) = [] \/ routes (page w) = predefinedRoutes.
Proof.
  intros H. apply (run_consistent evs _ w initial_consistent H).
Qed.

End ShippedPage.

(* ================================================================= *)
(** ** Ranked routes and the primary route *)

Section Ranking.

Import JS Page Reading Spec.

Lemma onePrimaryFirst_render (rs : list RouteInfo.t) :
  rs = predefinedRoutes ->
  primaryRoute rs = hd_error rs /\ alternativeRoutes rs = tl rs.
Proof. intros ->. split; reflexivity. Qed.

(** C1: whenever the route calculation answers a request with a list of
    routes that is not empty, exactly one of them has [isPrimary = true] and
    it is the first one.  The same holds of the routes the page holds after
    any sequence of requests and completions; the page's primary route card
    then shows that first route and the alternative cards show the others. *)
Theorem routes_one_primary_first :
  forall (NumberToString : number -> string),
    (forall location emergencyType rs,
        settled (simulateRouteCalculation location emergencyType)
        = Fulfilled rs ->
        rs <> [] ->
        onePrimaryFirst rs) /\
    (forall (evs : list Event) (w : World),
        RoutePage.run NumberToString RoutePage.initialWorld evs = Some w ->
        routes (page w) <> [] ->
        onePrimaryFirst (routes (page w)) /\
        primaryRoute (routes (page w)) = hd_error (routes (page w)) /\
        alternativeRoutes (routes (page w)) = tl (routes (page w))).
Proof.
  intros N. split.
  - intros location emergencyType rs Hrs _.
    rewrite simulateRouteCalculation_settles in Hrs.
    injection Hrs as <-. exact predefinedRoutes_onePrimaryFirst.
  - intros evs w Hrun Hne.
    destruct (reachable_routes N evs w Hrun) as [H|H]; [contradiction|].
    rewrite H. split; [exact predefinedRoutes_onePrimaryFirst|].
    apply onePrimaryFirst_render. reflexivity.
Qed.

Lemma routes_one_primary_first_witness :
  exists w,
    RoutePage.run Sample.engine RoutePage.initialWorld
      [Navigate Sample.cardiac; Settle 0] = Some w /\
    routes (page w) <> [] /\
    onePrimaryFirst (routes (page w)).
Proof.
  eexists. split; [vm_compute; reflexivity|].
  split; [discriminate|].
  refine (proj1 (proj2 (routes_one_primary_first Sample.engine)
                   [Navigate Sample.cardiac; Settle 0] _ eq_refl _)).
  discriminate.
Defined.



(** C4: the request with lat 34.0522, lng -118.2437 and emergency type
    "cardiac" ends, once its calculation completes, with the page neither
    loading nor in error, showing the route cards, and holding the routes
    to the three facilities of the catalogue in the order hosp1 (3200 m,
    480 s, light traffic, primary), hosp2 (4100 m, 600 s, moderate
    traffic), hosp3 (5500 m, 720 s, light traffic). *)
Theorem cardiac_scenario :
  forall (NumberToString : number -> string),
  exists w,
    RoutePage.run NumberToString RoutePage.initialWorld
      [Navigate [("lat", "34.0522"); ("lng", "-118.2437");
                 ("emergencyType", "cardiac")];
       Settle 0] = Some w /\
    isLoading (page w) = false /\
    error (page w) = None /\
    render (page w)
    = RouteCards (hd_error (routes (page w))) (tl (routes (page w))) /\
    map Hospital.id SIMULATED_HOSPITALS = ["hosp1"; "hosp2"; "hosp3"] /\
    map (fun r => (facilityId r, distanceMeters r, durationSeconds r,
                   RouteInfo.trafficStatus r, RouteInfo.isPrimary r))
        (routes (page w))
    = [ (Some "hosp1", Some (3200 # 1), Some (480 # 1),
         Some "Light traffic", true);
        (Some "hosp2", Some (4100 # 1), Some (600 # 1),
         Some "Moderate traffic", false);
        (Some "hosp3", Some (5500 # 1), Some (720 # 1),
         Some "Light traffic", false) ]%Q.
Proof.
  intros N. eexists. split; [vm_compute; reflexivity|].
  repeat split; vm_compute; reflexivity.
Qed.

(** C9, as the specification states it, fails: the first route the
    calculation returns carries the distance "3.2 km", a text with its
    display unit, not a plain number of metres. *)
Lemma carriesPlainNumbers_fails : ~ carriesPlainNumbers.
Proof.
  intros H.
  destruct (H (UserLocation.make None None "") "" predefinedRoutes
              (RouteInfo.make "route1" (nth_error SIMULATED_HOSPITALS 0)
                 "3.2 km" "8 mins" (Some "Light traffic") true)
              eq_refl (or_introl eq_refl)) as [[q [Hq _]] _].
  vm_compute in Hq. discriminate.
Qed.

(** C9, amended: every route the calculation returns carries its distance
    as the text of a non-negative number followed by " km" and its travel
    time as the text of a non-negative number followed by " mins": the
    values are in display units (kilometres, minutes) already. *)
Theorem routes_carry_display_units :
  forall location emergencyType,
  exists rs,
    settled (simulateRouteCalculation location emergencyType) = Fulfilled rs /\
    Forall (fun r => withUnit " km" (RouteInfo.distance r) /\
                     withUnit " mins" (RouteInfo.time r)) rs.
Proof.
  intros. exists predefinedRoutes. split; [reflexivity|].
  assert (Hu : forall u s q,
             amount u s = Some q -> Qle_bool 0 q = true -> withUnit u s).
  { intros u s q Ha Hq. exists q. split; [exact Ha|].
    apply Qle_bool_iff, Hq. }
  repeat constructor.
  - apply (Hu _ _ (16 # 5)%Q); reflexivity.
  - apply (Hu _ _ (8 # 1)%Q); reflexivity.
  - apply (Hu _ _ (41 # 10)%Q); reflexivity.
  - apply (Hu _ _ (10 # 1)%Q); reflexivity.
  - apply (Hu _ _ (11 # 2)%Q); reflexivity.
  - apply (Hu _ _ (12 # 1)%Q); reflexivity.
Qed.

End Ranking.

(* ================================================================= *)
(** ** Outcomes of a request *)

Section Outcomes.

Import JS Page Reading Spec.

Variable NumberToString : number -> string.
Variable calculate :
  UserLocation.t -> EmergencyCategory -> Promise (list RouteInfo.t).

Lemma messages_distinct :
  noRoutes <> calculationFailed /\ typeMissing <> locationMissing.
Proof. split; discriminate. Qed.

(** A rejected calculation ends on the error screen with the message
    for a failed calculation. *)
Lemma rejected_outcome (st : State) (reason : string) :
  render (performAll st (fetchRoutesResume (Rejected reason)))
  = ErrorScreen calculationFailed.
Proof. reflexivity. Qed.

(** C3: when the calculation of a pending request is fulfilled with no
    route at all, the request ends: the page stops loading, holds no
    route, and shows the error screen with the "could not find" message
    after a "No Routes" toast.  This outcome differs from the one of a
    rejected calculation, which shows the "failed to calculate" message. *)
Theorem empty_result_outcome :
  forall (w : World) (r : nat) (p : Promise (list RouteInfo.t))
         (rest : list (nat * Promise (list RouteInfo.t))),
    take r (inflight w) = Some (p, rest) ->
    settled p = Fulfilled [] ->
    exists w',
      step NumberToString calculate w (Settle r) = Some w' /\
      isLoading (page w') = false /\
      routes (page w') = [] /\
      error (page w') = Some noRoutes /\
      render (page w') = ErrorScreen noRoutes /\
      In (destructive "No Routes"
            "Could not find routes. Try expanding search or checking location.")
         (calls w') /\
      (forall reason,
          render (performAll (page w) (fetchRoutesResume (Rejected reason)))
          = ErrorScreen calculationFailed) /\
      noRoutes <> calculationFailed.
Proof.
  intros w r p rest Ht Hp. unfold step. rewrite Ht, Hp.
  eexists. split; [reflexivity|]. simpl.
  repeat split; try discriminate.
  apply in_or_app. right. right. left. reflexivity.
Qed.

(** C6: a request without an emergency type is rejected at once.  The
    effect only records the "emergency type is missing" error, stops the
    loading state and raises a toast: it builds no location and starts no
    calculation, so it does the same whatever the location parameters are,
    and the page shows a message that differs from the one for a missing
    location. *)
Theorem missing_type_rejected_first :
  forall (searchParams : URLSearchParams),
    truthy (get searchParams "emergencyType") = false ->
    effect NumberToString calculate searchParams
    = ([setError (Some typeMissing);
        setIsLoading false;
        destructive "Error" "Emergency type missing. Please go back."],
       None) /\
    (forall w, exists w',
        step NumberToString calculate w (Navigate searchParams) = Some w' /\
        render (page w') = ErrorScreen typeMissing /\
        userLocation (page w') = userLocation (page w) /\
        inflight w' = inflight w) /\
    typeMissing <> locationMissing.
Proof.
  intros sp Hty.
  assert (He : effect NumberToString calculate sp
               = ([setError (Some typeMissing);
                   setIsLoading false;
                   destructive "Error" "Emergency type missing. Please go back."],
                  None)).
  { unfold effect. rewrite Hty. reflexivity. }
  split; [exact He | split; [|discriminate]].
  intros w. unfold step. rewrite He. eexists. split; [reflexivity|].
  simpl. rewrite app_nil_r. repeat split.
Qed.

(** With an emergency type, parameters that give no location end on the
    error screen with the message for a missing location, and no
    calculation starts. *)
Lemma effect_location_missing (searchParams : URLSearchParams) :
  truthy (get searchParams "emergencyType") = true ->
  locationData NumberToString (get searchParams "lat")
    (get searchParams "lng") (get searchParams "address") = None ->
  effect NumberToString calculate searchParams
  = ([setEmergencyType (ToString (get searchParams "emergencyType"));
      setError (Some locationMissing);
      setIsLoading false;
      destructive "Error" "Location missing. Please go back."],
     None).
Proof.
  intros Hty Hloc. unfold effect. rewrite Hty, Hloc. reflexivity.
Qed.

(** C8, amended: the completion of any pending request, the one submitted
    last or an earlier one, takes the page out of the loading state and,
    when the calculation is fulfilled, stores its routes; the other
    pending requests stay pending.  No result is discarded. *)
Theorem every_completion_lands :
  forall (w : World) (r : nat) (p : Promise (list RouteInfo.t))
         (rest : list (nat * Promise (list RouteInfo.t))),
    take r (inflight w) = Some (p, rest) ->
    exists w',
      step NumberToString calculate w (Settle r) = Some w' /\
      isLoading (page w') = false /\
      (forall rs, settled p = Fulfilled rs -> routes (page w') = rs) /\
      inflight w' = rest.
Proof.
  intros w r p rest Ht. unfold step. rewrite Ht.
  eexists. split; [reflexivity|]. simpl. repeat split.
  - apply resume_not_loading.
  - intros rs ->. apply resume_stores_routes.
Qed.

End Outcomes.

Section OutcomeSamples.

Import JS Page Reading Spec.

Lemma empty_result_outcome_witness :
  exists w',
    step Sample.engine Sample.findsNothing
      (Sample.reached Sample.findsNothing [Navigate Sample.cardiac])
      (Settle 0) = Some w' /\
    render (page w') = ErrorScreen noRoutes.
Proof.
  destruct (empty_result_outcome Sample.engine Sample.findsNothing
              (Sample.reached Sample.findsNothing [Navigate Sample.cardiac])
              0%nat (mkPromise 1500 (Fulfilled [])) [] eq_refl eq_refl)
    as (w' & Hs & _ & _ & _ & Hr & _).
  exists w'. split; [exact Hs | exact Hr].
Defined.

Lemma missing_type_rejected_first_witness :
  truthy (get Sample.untyped "emergencyType") = false /\
  effect Sample.engine simulateRouteCalculation Sample.untyped
  = ([setError (Some typeMissing);
      setIsLoading false;
      destructive "Error" "Emergency type missing. Please go back."],
     None).
Proof.
  split; [reflexivity|].
  exact (proj1 (missing_type_rejected_first Sample.engine
                  simulateRouteCalculation Sample.untyped eq_refl)).
Defined.

(** Two requests in a row, and then the completion of the first one: the
    page was loading with request 1 the latest, and the completion of
    request 0 stops the loading state and stores its routes while request 1
    is still pending. *)
Example stale_completion_lands (NumberToString : number -> string) :
  exists w w',
    RoutePage.run NumberToString RoutePage.initialWorld
      [Navigate Sample.cardiac; Navigate Sample.trauma] = Some w /\
    isLoading (page w) = true /\
    latest w = Some 1%nat /\
    RoutePage.step NumberToString w (Settle 0) = Some w' /\
    isLoading (page w') = false /\
    routes (page w') = predefinedRoutes /\
    map fst (inflight w') = [1%nat].
Proof.
  eexists. eexists. split; [vm_compute; reflexivity|].
  split; [reflexivity|]. split; [reflexivity|].
  split; [vm_compute; reflexivity|].
  repeat split.
Qed.

(** C8, as the specification states it, fails: after two requests, the
    completion of the first one, which is no longer the latest, takes the
    page out of the loading state and stores its routes while the second
    request is still pending. *)
Lemma latestWins_fails : ~ exists NumberToString, latestWins NumberToString.
Proof.
  intros [N H].
  destruct (stale_completion_lands N)
    as (w & w' & Hrun & Hl & Hlat & Hs & Hl' & _).
  assert (Hstale : latest w <> Some 0%nat) by (rewrite Hlat; discriminate).
  destruct (H _ w 0%nat w' Hrun Hl Hstale Hs) as [Hl'' _].
  rewrite Hl' in Hl''. discriminate.
Qed.

Lemma every_completion_lands_witness :
  exists w',
    step Sample.engine simulateRouteCalculation
      (Sample.reached simulateRouteCalculation
         [Navigate Sample.cardiac; Navigate Sample.trauma])
      (Settle 0) = Some w' /\
    isLoading (page w') = false /\
    routes (page w') = predefinedRoutes /\
    map fst (inflight w') = [1%nat].
Proof.
  destruct (every_completion_lands Sample.engine simulateRouteCalculation
              (Sample.reached simulateRouteCalculation
                 [Navigate Sample.cardiac; Navigate Sample.trauma])
              0%nat (mkPromise 1500 (Fulfilled predefinedRoutes))
              [(1%nat, mkPromise 1500 (Fulfilled predefinedRoutes))]
              eq_refl)
    as (w' & Hs & Hl & Hr & Hi).
  exists w'. split; [exact Hs|]. split; [exact Hl|].
  split; [apply Hr; reflexivity|].
  rewrite Hi. reflexivity.
Defined.

End OutcomeSamples.

(* ================================================================= *)
(** ** The location built from the parameters *)

Section Location.

Import JS Page Reading Spec.

Variable NumberToString : number -> string.

Lemma within_value (lo hi : Z) (x : number) :
  within lo hi x = true -> exists v, value x = Some v.
Proof.
  unfold within. destruct (value x) as [v|]; [eauto | discriminate].
Qed.

Lemma valid_text_truthy (lo hi : Z) (s : string) :
  within lo hi (parseFloat s) = true -> truthy (Some s) = true.
Proof.
  intros H. destruct (within_value _ _ _ H) as [v Hv].
  simpl. rewrite (value_parseFloat_nonempty s v Hv). reflexivity.
Qed.

(** C7: for texts [lat] and [lng] that parse to a latitude within
    [-90, 90] and a longitude within [-180, 180], the location built has
    these two coordinates; with an address given (a non-empty text) its
    label is that address, and without one its label is "Coords: "
    followed by the latitude and the longitude, each rounded to four
    decimal places, separated by ", ". *)
Theorem coordinates_location_label :
  forall (lat lng : string) (address : option string),
    validLatitude (parseFloat lat) = true ->
    validLongitude (parseFloat lng) = true ->
    exists label,
      locationData NumberToString (Some lat) (Some lng) address
      = Some (UserLocation.make (Some (parseFloat lat))
                (Some (parseFloat lng)) label) /\
      (truthy address = true -> label = ToString address) /\
      (truthy address = false ->
       exists a b,
         label = "Coords: " ++ a ++ ", " ++ b /\
         rounded4 (parseFloat lat) a /\
         rounded4 (parseFloat lng) b).
Proof.
  intros lat lng address Hlat Hlng.
  unfold locationData.
  rewrite (valid_text_truthy _ _ lat Hlat), (valid_text_truthy _ _ lng Hlng).
  cbn [andb ToString]. eexists. split; [reflexivity|]. split.
  - intros Ha. apply orElse_truthy, Ha.
  - intros Ha. rewrite (orElse_falsy _ _ Ha).
    eexists _, _. split; [reflexivity|]. split.
    + apply (toFixed_rounded4 NumberToString (-90) 90);
        [reflexivity | reflexivity | exact Hlat].
    + apply (toFixed_rounded4 NumberToString (-180) 180);
        [reflexivity | reflexivity | exact Hlng].
Qed.

(** C5, amended: no location is built exactly when [lat] or [lng] is
    absent or empty and [address] is absent or empty.  With [lat] and
    [lng] both non-empty the location has the two Numbers that
    [parseFloat] reads from them, whatever these are; otherwise, with a
    non-empty address, it has no coordinates and that address as given.  A
    location never has one coordinate without the other. *)
Theorem location_missing_iff :
  forall (lat lng address : option string),
    (locationData NumberToString lat lng address = None <->
     truthy lat && truthy lng = false /\ truthy address = false) /\
    (truthy lat && truthy lng = true ->
     exists label,
       locationData NumberToString lat lng address
       = Some (UserLocation.make (Some (parseFloat (ToString lat)))
                 (Some (parseFloat (ToString lng))) label)) /\
    (truthy lat && truthy lng = false ->
     truthy address = true ->
     locationData NumberToString lat lng address
     = Some (UserLocation.make None None (ToString address))).
Proof.
  intros lat lng address. unfold locationData.
  destruct (truthy lat && truthy lng); destruct (truthy address);
    repeat split; try discriminate; try reflexivity;
    try (intros [? ?]; discriminate); eauto.
Qed.

End Location.

Section LocationSamples.

Import JS Page Reading Spec.

Lemma coordinates_location_label_witness :
  validLatitude (parseFloat "34.0522") = true /\
  validLongitude (parseFloat "-118.2437") = true /\
  exists label,
    locationData Sample.engine (Some "34.0522") (Some "-118.2437") None
    = Some (UserLocation.make (Some (parseFloat "34.0522"))
              (Some (parseFloat "-118.2437")) label) /\
    exists a b,
      label = "Coords: " ++ a ++ ", " ++ b /\
      rounded4 (parseFloat "34.0522") a /\
      rounded4 (parseFloat "-118.2437") b.
Proof.
  split; [reflexivity | split; [reflexivity|]].
  destruct (coordinates_location_label Sample.engine
              "34.0522" "-118.2437" None eq_refl eq_refl)
    as (label & Hl & _ & Hr).
  exists label. split; [exact Hl | exact (Hr eq_refl)].
Defined.

Example coordinates_label_sample (NumberToString : number -> string) :
  locationData NumberToString (Some "34.0522") (Some "-118.2437") None
  = Some (UserLocation.make (Some (parseFloat "34.0522"))
            (Some (parseFloat "-118.2437")) "Coords: 34.0522, -118.2437")
  /\ locationData NumberToString (Some "12.345678") (Some "0")
       (Some "123 Main St")
     = Some (UserLocation.make (Some (parseFloat "12.345678"))
               (Some (parseFloat "0")) "123 Main St")
  /\ locationData NumberToString (Some "12.345678") (Some "-0.00004") None
     = Some (UserLocation.make (Some (parseFloat "12.345678"))
               (Some (parseFloat "-0.00004")) "Coords: 12.3457, -0.0000").
Proof. repeat split; vm_compute; reflexivity. Qed.

(** What the page builds from a white-space address, from texts that are
    no numbers, and from numbers outside the geographic ranges. *)
Example blank_address_accepted (NumberToString : number -> string) :
  locationData NumberToString None None (Some "   ")
  = Some (UserLocation.make None None "   ").
Proof. reflexivity. Qed.

Example not_a_number_accepted (NumberToString : number -> string) :
  locationData NumberToString (Some "abc") (Some "xyz") None
  = Some (UserLocation.make (Some NaN) (Some NaN) "Coords: NaN, NaN").
Proof. vm_compute. reflexivity. Qed.

Example out_of_range_accepted (NumberToString : number -> string) :
  locationData NumberToString (Some "999") (Some "-999") None
  = Some (UserLocation.make (Some (parseFloat "999"))
            (Some (parseFloat "-999")) "Coords: 999.0000, -999.0000")
  /\ validLatitude (parseFloat "999") = false
  /\ validLongitude (parseFloat "-999") = false.
Proof. repeat split; vm_compute; reflexivity. Qed.

(** C5, as the specification states it, fails: with no coordinates and
    the address "   " (white space only) a location is built all the same;
    and the texts "abc" and "xyz" for [lat] and [lng] give a location
    whose coordinates are [NaN]. *)
Lemma resolvesStrictly_fails :
  ~ exists NumberToString, resolvesStrictly NumberToString.
Proof.
  intros [N [H _]].
  specialize (H None None (Some "   ") eq_refl eq_refl).
  discriminate H.
Qed.

Lemma resolvesStrictly_fails_on_coordinates :
  ~ exists NumberToString,
      forall lat lng address loc,
        locationData NumberToString lat lng address = Some loc ->
        wellFormed loc = true.
Proof.
  intros [N H].
  specialize (H (Some "abc") (Some "xyz") None _ (not_a_number_accepted N)).
  discriminate H.
Qed.

Lemma location_missing_iff_witness :
  truthy None && truthy (Some "34.0522") = false /\
  truthy (Some "") = false /\
  locationData Sample.engine None (Some "34.0522") (Some "") = None.
Proof.
  split; [reflexivity | split; [reflexivity|]].
  exact (proj2 (proj1 (location_missing_iff Sample.engine
                         None (Some "34.0522") (Some "")))
           (conj eq_refl eq_refl)).
Defined.

End LocationSamples.

(* ================================================================= *)
(** ** The route cards *)

Section Cards.

Import JS Page Widgets.

Lemma find_filter (f : RouteInfo.t -> bool) (rs : list RouteInfo.t) :
  find f rs = hd_error (filter f rs).
Proof.
  induction rs as [|r rs IH]; simpl; [reflexivity|].
  destruct (f r); [reflexivity | exact IH].
Qed.

Lemma alternatives_length (rs : list RouteInfo.t) :
  (List.length (alternativeRoutes rs)
   + List.length (filter (fun r => RouteInfo.isPrimary r) rs)
   = List.length rs)%nat.
Proof.
  unfold alternativeRoutes.
  induction rs as [|r rs IH]; simpl; [reflexivity|].
  destruct (RouteInfo.isPrimary r); simpl; lia.
Qed.

(** X1: the primary card shows the first route flagged primary and the
    alternative cards show the routes that are not flagged, so the page
    shows every route it holds exactly when at most one route is flagged;
    every further flagged route is left out. *)
Theorem route_cards_count :
  forall (rs : list RouteInfo.t),
    primaryRoute rs = hd_error (filter (fun r => RouteInfo.isPrimary r) rs) /\
    (cardsShown rs + List.length (filter (fun r => RouteInfo.isPrimary r) rs)
     = List.length rs
       + match primaryRoute rs with Some _ => 1 | None => 0 end)%nat /\
    (cardsShown rs = List.length rs <->
     (List.length (filter (fun r => RouteInfo.isPrimary r) rs) <= 1)%nat).
Proof.
  intros rs. pose proof (alternatives_length rs) as Hl.
  assert (Hp : primaryRoute rs
               = hd_error (filter (fun r => RouteInfo.isPrimary r) rs))
    by apply find_filter.
  unfold cardsShown. rewrite Hp.
  destruct (filter (fun r => RouteInfo.isPrimary r) rs) as [|p ps];
    simpl in *; repeat split; try lia.
Qed.

End Cards.

(* ================================================================= *)
(** ** URI encoding and the navigation link *)

Section Navigation.

Import JS Page Widgets URI.







Variable NumberToString : number -> string.



End Navigation.

(* ================================================================= *)
(** ** The map placeholder and the location *)

Section MapPlaceholder.

Import JS Page Widgets.

Variable NumberToString : number -> string.

(** Every location the page builds has a label that is not empty. *)
Lemma locationData_labelled (lat lng address : option string)
      (loc : UserLocation.t) :
  locationData NumberToString lat lng address = Some loc ->
  (UserLocation.address loc =? "")%string = false.
Proof.
  unfold locationData.
  destruct (truthy lat && truthy lng).
  - intros [= <-]. cbn [UserLocation.address].
    destruct address as [a|]; cbn [orElse]; [|reflexivity].
    destruct (a =? "")%string eqn:Ha; [reflexivity | exact Ha].
  - destruct address as [a|]; cbn [truthy]; [|discriminate].
    destruct (a =? "")%string eqn:Ha; cbn [negb]; [discriminate|].
    intros [= <-]. exact Ha.
Qed.

(** X4: what the map placeholder says of a location built from the [lat]
    and [lng] texts.  When both parse to Numbers other than zero and [NaN]
    it shows the coordinates line and no address line.  When the latitude
    parses to zero or to [NaN] it prints a bare "0" or "NaN" in place of the
    coordinates line and shows the address line; when only the longitude
    does, it prints the bare text and shows no line about the user. *)
Theorem map_lines_of_coordinates :
  forall (lat lng : string) (address : option string),
    (lat =? "")%string = false ->
    (lng =? "")%string = false ->
    exists loc,
      locationData NumberToString (Some lat) (Some lng) address = Some loc /\
      userLineOf NumberToString (Some loc)
      = (if truthyNumber (parseFloat lat) then
           if truthyNumber (parseFloat lng) then
             Span ("User: " ++ toFixed NumberToString 3 (parseFloat lat)
                   ++ ", " ++ toFixed NumberToString 3 (parseFloat lng))
           else printFalsy (parseFloat lng)
         else printFalsy (parseFloat lat)) /\
      addressLineOf (Some loc)
      = (if truthyNumber (parseFloat lat) then Nothing
         else Span ("User Address: " ++ UserLocation.address loc)).
Proof.
  intros lat lng address Hlat Hlng.
  destruct (locationData NumberToString (Some lat) (Some lng) address)
    as [loc|] eqn:Hloc.
  2: { unfold locationData in Hloc. cbn [truthy] in Hloc.
       rewrite Hlat, Hlng in Hloc. discriminate. }
  exists loc. split; [reflexivity|].
  pose proof (locationData_labelled _ _ _ _ Hloc) as Hlabel.
  unfold locationData in Hloc. cbn [truthy] in Hloc.
  rewrite Hlat, Hlng in Hloc. cbn [negb andb ToString] in Hloc.
  injection Hloc as <-. cbn [UserLocation.address] in Hlabel.
  unfold userLineOf, addressLineOf.
  cbn [UserLocation.latitude UserLocation.longitude UserLocation.address].
  rewrite Hlabel. split; reflexivity.
Qed.

(** The line under the map that names the primary route reads the first
    route; the primary card reads the first flagged route.  They name the
    same facility when the first route is flagged. *)
Lemma primary_line_agrees (rs : list RouteInfo.t) (r : RouteInfo.t)
      (h : Hospital.t) :
  hd_error rs = Some r ->
  RouteInfo.isPrimary r = true ->
  RouteInfo.hospital r = Some h ->
  primaryRoute rs = Some r /\
  primaryLineOf rs = Some (Span ("Primary Route to: " ++ Hospital.name h)).
Proof.
  destruct rs as [|r0 rs]; [discriminate|]. intros [= ->] Hp Hh.
  unfold primaryRoute, primaryLineOf. simpl. rewrite Hp, Hh.
  split; reflexivity.
Qed.

End MapPlaceholder.

(* ================================================================= *)
(** ** What every run of the component keeps *)

Section Runs.

Import JS Page Widgets.

Variable NumberToString : number -> string.
Variable calculate :
  UserLocation.t -> EmergencyCategory -> Promise (list RouteInfo.t).

Lemma run_invariant (P : World -> Prop) :
  (forall w ev w',
      P w -> step NumberToString calculate w ev = Some w' -> P w') ->
  forall evs w w',
    P w -> run NumberToString calculate w evs = Some w' -> P w'.
Proof.
  intros Hstep evs. induction evs as [|ev evs IH]; intros w w' Hw; simpl.
  - intros [= <-]. exact Hw.
  - destruct (step NumberToString calculate w ev) as [w1|] eqn:Hs;
      [|discriminate].
    apply IH. apply (Hstep w ev w1 Hw Hs).
Qed.

(** The three ways the effect ends. *)
Lemma effect_cases (searchParams : URLSearchParams) :
  let type := get searchParams "emergencyType" in
  (truthy type = false /\
   effect NumberToString calculate searchParams
   = ([setError (Some typeMissing); setIsLoading false;
       destructive "Error" "Emergency type missing. Please go back."],
      None)) \/
  (truthy type = true /\
   locationData NumberToString (get searchParams "lat")
     (get searchParams "lng") (get searchParams "address") = None /\
   effect NumberToString calculate searchParams
   = ([setEmergencyType (ToString type); setError (Some locationMissing);
       setIsLoading false;
       destructive "Error" "Location missing. Please go back."],
      None)) \/
  (exists loc,
      truthy type = true /\
      locationData NumberToString (get searchParams "lat")
        (get searchParams "lng") (get searchParams "address") = Some loc /\
      effect NumberToString calculate searchParams
      = ([setEmergencyType (ToString type); setUserLocation loc;
          setIsLoading true; setError None],
         Some (calculate loc (ToString type)))).
Proof.
  cbv zeta. unfold effect.
  destruct (truthy (get searchParams "emergencyType")); cbn [negb].
  - destruct (locationData _ _ _ _) as [loc|].
    + right. right. exists loc. repeat split.
    + right. left. repeat split.
  - left. split; reflexivity.
Qed.

Lemma truthy_ToString (v : option string) :
  truthy v = true -> truthy (Some (ToString v)) = true.
Proof. destruct v; [exact (fun H => H) | discriminate]. Qed.

Lemma resume_keeps_request (st : State) (o : Settled (list RouteInfo.t)) :
  emergencyType (performAll st (fetchRoutesResume o)) = emergencyType st /\
  userLocation (performAll st (fetchRoutesResume o)) = userLocation st.
Proof.
  destruct o as [rs|err]; [|split; reflexivity].
  unfold fetchRoutesResume.
  destruct (List.length rs =? 0)%nat; split; reflexivity.
Qed.

(** X5: the spinner never stays without a reason.  After any sequence of
    requests and completions, if the page is loading then a calculation is
    pending, or the effect has not run yet. *)
Theorem loading_has_pending :
  forall (evs : list Event) (w : World),
    run NumberToString calculate initialWorld evs = Some w ->
    isLoading (page w) = true ->
    submitted w = 0%nat \/ inflight w <> [].
Proof.
  intros evs w Hrun.
  refine (run_invariant
            (fun w => isLoading (page w) = true ->
                      submitted w = 0%nat \/ inflight w <> [])
            _ evs initialWorld w _ Hrun).
  - clear. intros w ev w' _ Hs Hl. right. destruct ev as [sp|r]; simpl in Hs.
    + destruct (effect_cases sp) as [[_ He]|[(_ & _ & He)|(loc & _ & _ & He)]];
        rewrite He in Hs; injection Hs as <-; simpl in Hl |- *;
        try discriminate.
      intros H. apply app_eq_nil in H as [_ H]. discriminate.
    + destruct (take r (inflight w)) as [[p rest]|]; [|discriminate].
      injection Hs as <-. simpl in Hl.
      rewrite resume_not_loading in Hl. discriminate.
  - intros _. left. reflexivity.
Qed.

(** Once a request was accepted the page holds its type and location for
    good; until then nothing is pending and the page is as it started or
    on the error screen. *)
Lemma requested_or_not (evs : list Event) (w : World) :
  run NumberToString calculate initialWorld evs = Some w ->
  requested (page w) \/ unrequested w.
Proof.
  intros Hrun.
  refine (run_invariant (fun w => requested (page w) \/ unrequested w)
            _ evs initialWorld w _ Hrun).
  - clear. intros w ev w' Hw Hs. destruct ev as [sp|r]; simpl in Hs.
    + destruct (effect_cases sp)
        as [[Hty He]|[(Hty & Hloc & He)|(loc & Hty & Hloc & He)]];
        rewrite He in Hs; injection Hs as <-.
      * destruct Hw as [Hq|(Hi & Hr & _)]; [left; exact Hq | right].
        unfold unrequested. simpl. rewrite app_nil_r.
        repeat split; try assumption. right. split; reflexivity.
      * destruct Hw as [(_ & loc & Hl & Ha)|(Hi & Hr & _)]; [left | right].
        -- split; [apply truthy_ToString, Hty|].
           exists loc. split; assumption.
        -- unfold unrequested. simpl. rewrite app_nil_r.
           repeat split; try assumption. right. split; reflexivity.
      * left. split; [apply truthy_ToString, Hty|].
        exists loc. split; [reflexivity|].
        apply (locationData_labelled NumberToString _ _ _ _ Hloc).
    + destruct (take r (inflight w)) as [[p rest]|] eqn:Ht; [|discriminate].
      injection Hs as <-.
      destruct Hw as [Hq|(Hi & _)].
      * left. unfold requested. simpl.
        destruct (resume_keeps_request (page w) (settled p)) as [-> ->].
        exact Hq.
      * rewrite Hi in Ht. discriminate.
  - right. repeat split. left. split; reflexivity.
Qed.

(** X6: whenever the page shows the route cards, it also shows the chatbot
    and the SOS button: the cards are only reached after a request was
    accepted, and the emergency type and the location of an accepted request
    are never taken back. *)
Theorem cards_come_with_chatbot_and_sos :
  forall (evs : list Event) (w : World) (primary : option RouteInfo.t)
         (alternatives : list RouteInfo.t),
    run NumberToString calculate initialWorld evs = Some w ->
    render (page w) = RouteCards primary alternatives ->
    showsChatbot (page w) = true /\ showsSosButton (page w) = true.
Proof.
  intros evs w primary alternatives Hrun Hr.
  destruct (requested_or_not evs w Hrun)
    as [(Hty & loc & Hl & _)|(_ & _ & [[_ Hp]|[Hl He]])].
  - unfold showsChatbot, showsSosButton. rewrite Hty, Hl. split; reflexivity.
  - rewrite Hp in Hr. discriminate.
  - unfold render in Hr. rewrite Hl, He in Hr. discriminate.
Qed.

(** X7: once the effect has run, the loading screen names the emergency
    type and the label of the location of an accepted request; the texts
    "your emergency" and "your location" can only be seen before the first
    run of the effect. *)
Theorem loading_line_names_request :
  forall (evs : list Event) (w : World),
    run NumberToString calculate initialWorld evs = Some w ->
    isLoading (page w) = true ->
    submitted w <> 0%nat ->
    exists type loc,
      emergencyType (page w) = Some type /\
      userLocation (page w) = Some loc /\
      loadingLine (page w)
      = "Finding help for '" ++ type ++ "' near "
        ++ UserLocation.address loc ++ "...".
Proof.
  intros evs w Hrun Hl Hs.
  destruct (requested_or_not evs w Hrun)
    as [(Hty & loc & Hloc & Ha)|(_ & _ & [[H0 _]|[Hl' _]])];
    [|contradiction | rewrite Hl' in Hl; discriminate].
  destruct (emergencyType (page w)) as [type|] eqn:Het; [|discriminate].
  exists type, loc. repeat split; [exact Hloc|].
  unfold loadingLine. rewrite Het, Hloc. cbn [option_map orElse].
  simpl in Hty. destruct (type =? "")%string; [discriminate|].
  rewrite Ha. reflexivity.
Qed.

(** Pending requests are numbered below the count of submitted ones. *)
Lemma run_numbered (evs : list Event) (w : World) :
  run NumberToString calculate initialWorld evs = Some w -> numbered w.
Proof.
  intros Hrun.
  refine (run_invariant numbered _ evs initialWorld w _ Hrun).
  - clear. unfold numbered. intros w ev w' Hw Hs.
    destruct ev as [sp|r]; simpl in Hs.
    + destruct (effect NumberToString calculate sp) as [cs launched].
      injection Hs as <-. simpl. apply Forall_app. split.
      * eapply Forall_impl; [|exact Hw]. simpl. intros; lia.
      * destruct launched; repeat constructor.
    + destruct (take r (inflight w)) as [[p rest]|] eqn:Ht; [|discriminate].
      injection Hs as <-. simpl.
      destruct (take_In r _ p rest Ht) as [_ Hrest].
      rewrite Forall_forall in Hw |- *. intros x Hx. apply Hw, Hrest, Hx.
  - constructor.
Qed.

Lemma take_fresh (r : nat) (p : Promise (list RouteInfo.t))
      (l : list (nat * Promise (list RouteInfo.t))) :
  Forall (fun i => (fst i < r)%nat) l ->
  take r (l ++ [(r, p)]) = Some (p, l).
Proof.
  induction l as [|[k q] l IH]; intros H; simpl.
  - rewrite Nat.eqb_refl. reflexivity.
  - inversion H as [|? ? Hk Hl]; subst. simpl in Hk.
    destruct (Nat.eqb_spec k r) as [->|_]; [lia|].
    rewrite (IH Hl). reflexivity.
Qed.

(** X8: a request that is accepted and whose calculation completes before
    anything else happens shows its own result, whatever happened before:
    an earlier error is cleared, the routes held are replaced by the routes
    found, and the requests that were pending stay pending. *)
Theorem fresh_request_shows_its_routes :
  forall (evs : list Event) (w : World) (searchParams : URLSearchParams)
         (loc : UserLocation.t) (rs : list RouteInfo.t),
    run NumberToString calculate initialWorld evs = Some w ->
    truthy (get searchParams "emergencyType") = true ->
    locationData NumberToString (get searchParams "lat")
      (get searchParams "lng") (get searchParams "address") = Some loc ->
    settled (calculate loc (ToString (get searchParams "emergencyType")))
    = Fulfilled rs ->
    rs <> [] ->
    exists w',
      run NumberToString calculate w
        [Navigate searchParams; Settle (submitted w)] = Some w' /\
      page w'
      = mkState rs false None (Some loc)
          (Some (ToString (get searchParams "emergencyType"))) /\
      render (page w') = RouteCards (primaryRoute rs) (alternativeRoutes rs) /\
      inflight w' = inflight w.
Proof.
  intros evs w sp loc rs Hrun Hty Hloc Hrs Hne.
  pose proof (run_numbered evs w Hrun) as Hnum.
  assert (He : effect NumberToString calculate sp
               = ([setEmergencyType (ToString (get sp "emergencyType"));
                   setUserLocation loc; setIsLoading true; setError None],
                  Some (calculate loc (ToString (get sp "emergencyType"))))).
  { unfold effect. rewrite Hty, Hloc. reflexivity. }
  cbn [run step]. rewrite He. cbn [inflight submitted].
  rewrite (take_fresh _ _ _ Hnum), Hrs.
  destruct rs as [|r rs]; [contradiction|].
  eexists. split; [reflexivity|]. repeat split.
Qed.

(** X12: when a request without emergency type comes in while an earlier
    request is pending, and the earlier calculation then completes with
    routes, the page stays on the "emergency type is missing" error
    screen: the routes are stored, but the error is not cleared. *)
Theorem later_rejection_stays_visible :
  forall (w : World) (searchParams : URLSearchParams) (r : nat)
         (p : Promise (list RouteInfo.t))
         (rest : list (nat * Promise (list RouteInfo.t)))
         (rs : list RouteInfo.t),
    truthy (get searchParams "emergencyType") = false ->
    take r (inflight w) = Some (p, rest) ->
    settled p = Fulfilled rs ->
    rs <> [] ->
    exists w',
      run NumberToString calculate w [Navigate searchParams; Settle r]
      = Some w' /\
      render (page w') = ErrorScreen typeMissing /\
      routes (page w') = rs /\
      inflight w' = rest.
Proof.
  intros w sp r p rest rs Hty Ht Hp Hne.
  assert (He : effect NumberToString calculate sp
               = ([setError (Some typeMissing); setIsLoading false;
                   destructive "Error"
                     "Emergency type missing. Please go back."],
                  None)).
  { unfold effect. rewrite Hty. reflexivity. }
  cbn [run step]. rewrite He. cbn [inflight submitted].
  rewrite app_nil_r, Ht, Hp.
  destruct rs as [|r0 rs]; [contradiction|].
  eexists. split; [reflexivity|]. repeat split.
Qed.

End Runs.

(* ================================================================= *)
(** ** What the shipped page never shows *)

Section ShippedViews.

Import JS Page Widgets.

Variable NumberToString : number -> string.

Lemma shipped_error_invariant (evs : list Event) (w : World) :
  RoutePage.run NumberToString RoutePage.initialWorld evs = Some w ->
  consistent w /\
  (error (page w) = None \/ error (page w) = Some typeMissing \/
   error (page w) = Some locationMissing).
Proof.
  intros Hrun.
  refine (run_invariant NumberToString simulateRouteCalculation
            (fun w => consistent w /\
                      (error (page w) = None \/
                       error (page w) = Some typeMissing \/
                       error (page w) = Some locationMissing))
            _ evs initialWorld w _ Hrun).
  - clear. intros w ev w' [Hc He] Hs.
    split; [apply (step_consistent NumberToString w w' ev Hc Hs)|].
    destruct ev as [sp|r]; simpl in Hs.
    + destruct (effect_cases NumberToString simulateRouteCalculation sp)
        as [[_ H]|[(_ & _ & H)|(loc & _ & _ & H)]];
        rewrite H in Hs; injection Hs as <-; simpl; auto.
    + destruct (take r (inflight w)) as [[p rest]|] eqn:Ht; [|discriminate].
      injection Hs as <-. destruct Hc as [_ Hp].
      destruct (take_In r _ p rest Ht) as [Hin _].
      rewrite Forall_forall in Hp. specialize (Hp _ Hin). simpl in Hp.
      simpl. rewrite Hp. exact He.
  - split; [exact initial_consistent | left; reflexivity].
Qed.

(** X9: the shipped page has two error screens only.  Whatever the
    requests and the order of completions, an error screen it shows carries
    the message for a missing emergency type or the one for a missing
    location; the messages for no route found and for a failed calculation
    are never shown, since the simulated calculation always finds routes. *)
Theorem shipped_error_screens :
  forall (evs : list Event) (w : World) (message : string),
    RoutePage.run NumberToString RoutePage.initialWorld evs = Some w ->
    render (page w) = ErrorScreen message ->
    message = typeMissing \/ message = locationMissing.
Proof.
  intros evs w message Hrun Hr.
  destruct (shipped_error_invariant evs w Hrun) as [_ He].
  unfold render in Hr. destruct (isLoading (page w)); [discriminate|].
  destruct He as [He|[He|He]]; rewrite He in Hr; simpl in Hr;
    [discriminate | left | right]; congruence.
Qed.

(** X10: on the shipped page the map placeholder can always be drawn, and
    when routes are held its "Primary Route to" line names the facility of
    the primary route card. *)
Theorem shipped_map_names_primary :
  forall (evs : list Event) (w : World),
    RoutePage.run NumberToString RoutePage.initialWorld evs = Some w ->
    exists lines,
      RouteMapPlaceholder NumberToString (routes (page w))
        (userLocation (page w)) = Some lines /\
      (routes (page w) <> [] ->
       exists r h,
         primaryRoute (routes (page w)) = Some r /\
         RouteInfo.hospital r = Some h /\
         primaryLine lines = Span ("Primary Route to: " ++ Hospital.name h)).
Proof.
  intros evs w Hrun.
  destruct (reachable_routes NumberToString evs w Hrun) as [H|H]; rewrite H.
  - eexists. split; [reflexivity|]. intros Hne. contradiction.
  - eexists. split; [reflexivity|]. intros _.
    eexists _, _. repeat split.
Qed.

(** X11: on the shipped page every route card has working buttons: the
    facility of each route held is known, it has a phone number, so that
    [handleCall] dials it and never raises the "No Phone Number" toast, and
    it has coordinates other than zero, so that [handleNavigate] links to
    the coordinates and never to the address. *)
Theorem shipped_buttons :
  forall (evs : list Event) (w : World) (r : RouteInfo.t),
    RoutePage.run NumberToString RoutePage.initialWorld evs = Some w ->
    In r (routes (page w)) ->
    exists h phone,
      RouteInfo.hospital r = Some h /\
      Hospital.phone h = Some phone /\
      handleCall (Hospital.phone h)
      = [assignHref ("tel:" ++ phone);
         raiseToast (mkToast "Calling..." ("Dialing " ++ phone) None)] /\
      destination NumberToString h
      = NumberToString (Hospital.latitude h) ++ ","
        ++ NumberToString (Hospital.longitude h).
Proof.
  intros evs w r Hrun Hin.
  destruct (reachable_routes NumberToString evs w Hrun) as [H|H];
    rewrite H in Hin; [contradiction|].
  destruct Hin as [<-|[<-|[<-|[]]]]; eexists _, _; repeat split.
Qed.

End ShippedViews.

(* ================================================================= *)
(** ** Samples for the properties above *)

Section MoreSamples.

Import JS Page Widgets.



Lemma map_lines_of_coordinates_witness :
  exists loc,
    locationData Sample.engine (Some "0") (Some "-78.4678") None = Some loc /\
    userLineOf Sample.engine (Some loc) = Bare "0" /\
    addressLineOf (Some loc) = Span "User Address: Coords: 0.0000, -78.4678".
Proof.
  destruct (map_lines_of_coordinates Sample.engine "0" "-78.4678" None
              eq_refl eq_refl) as (loc & Hl & Hu & Ha).
  exists loc. split; [exact Hl|]. split; [exact Hu|].
  rewrite Ha. injection Hl as <-. reflexivity.
Defined.

Lemma loading_has_pending_witness :
  inflight (More.after simulateRouteCalculation [Navigate Sample.trauma])
  <> [].
Proof.
  destruct (loading_has_pending Sample.engine simulateRouteCalculation
              [Navigate Sample.trauma]
              (More.after simulateRouteCalculation [Navigate Sample.trauma])
              eq_refl eq_refl) as [H|H]; [discriminate H | exact H].
Defined.

Lemma cards_come_with_chatbot_and_sos_witness :
  showsChatbot
    (page (More.after simulateRouteCalculation
             [Navigate Sample.trauma; Settle 0])) = true /\
  showsSosButton
    (page (More.after simulateRouteCalculation
             [Navigate Sample.trauma; Settle 0])) = true.
Proof.
  exact (cards_come_with_chatbot_and_sos Sample.engine
           simulateRouteCalculation [Navigate Sample.trauma; Settle 0]
           (More.after simulateRouteCalculation
              [Navigate Sample.trauma; Settle 0])
           (hd_error predefinedRoutes) (tl predefinedRoutes)
           eq_refl eq_refl).
Defined.

Lemma loading_line_names_request_witness :
  exists type loc,
    emergencyType
      (page (More.after simulateRouteCalculation
               [Navigate Sample.untyped; Navigate Sample.trauma]))
    = Some type /\
    userLocation
      (page (More.after simulateRouteCalculation
               [Navigate Sample.untyped; Navigate Sample.trauma]))
    = Some loc /\
    loadingLine
      (page (More.after simulateRouteCalculation
               [Navigate Sample.untyped; Navigate Sample.trauma]))
    = "Finding help for '" ++ type ++ "' near "
      ++ UserLocation.address loc ++ "...".
Proof.
  refine (loading_line_names_request Sample.engine simulateRouteCalculation
            [Navigate Sample.untyped; Navigate Sample.trauma]
            _ eq_refl eq_refl _).
  discriminate.
Defined.

Lemma fresh_request_shows_its_routes_witness :
  exists w',
    run Sample.engine simulateRouteCalculation
      (More.after simulateRouteCalculation
         [Navigate Sample.cardiac; Navigate Sample.untyped])
      [Navigate Sample.trauma; Settle 2] = Some w' /\
    render (page w')
    = RouteCards (primaryRoute predefinedRoutes)
        (alternativeRoutes predefinedRoutes) /\
    map fst (inflight w') = [0%nat].
Proof.
  destruct (fresh_request_shows_its_routes Sample.engine
              simulateRouteCalculation
              [Navigate Sample.cardiac; Navigate Sample.untyped]
              (More.after simulateRouteCalculation
                 [Navigate Sample.cardiac; Navigate Sample.untyped])
              Sample.trauma
              (UserLocation.make None None "456 Oak Ave, Cityville")
              predefinedRoutes eq_refl eq_refl eq_refl eq_refl)
    as (w' & Hr & _ & Hv & Hi).
  - discriminate.
  - exists w'. split; [exact Hr|]. split; [exact Hv|].
    rewrite Hi. reflexivity.
Defined.

Lemma shipped_error_screens_witness :
  render (page (More.after simulateRouteCalculation
                  [Navigate Sample.cardiac; Navigate Sample.untyped;
                   Settle 0]))
  = ErrorScreen typeMissing /\
  (typeMissing = typeMissing \/ typeMissing = locationMissing).
Proof.
  split; [reflexivity|].
  exact (shipped_error_screens Sample.engine
           [Navigate Sample.cardiac; Navigate Sample.untyped; Settle 0]
           (More.after simulateRouteCalculation
              [Navigate Sample.cardiac; Navigate Sample.untyped; Settle 0])
           typeMissing eq_refl eq_refl).
Defined.

Lemma shipped_map_names_primary_witness :
  exists lines,
    RouteMapPlaceholder Sample.engine
      (routes (page (More.after simulateRouteCalculation
                       [Navigate Sample.cardiac; Settle 0])))
      (userLocation (page (More.after simulateRouteCalculation
                             [Navigate Sample.cardiac; Settle 0])))
    = Some lines /\
    primaryLine lines = Span "Primary Route to: City General Hospital".
Proof.
  destruct (shipped_map_names_primary Sample.engine
              [Navigate Sample.cardiac; Settle 0]
              (More.after simulateRouteCalculation
                 [Navigate Sample.cardiac; Settle 0]) eq_refl)
    as (lines & Hl & Hp).
  exists lines. split; [exact Hl|].
  destruct Hp as (r & h & Hr & Hh & Hline); [discriminate|].
  rewrite Hline. injection Hr as <-. injection Hh as <-. reflexivity.
Defined.

Lemma shipped_buttons_witness :
  exists h phone,
    nth_error SIMULATED_HOSPITALS 1 = Some h /\
    Hospital.phone h = Some phone /\
    handleCall (Hospital.phone h)
    = [assignHref ("tel:" ++ phone);
       raiseToast (mkToast "Calling..." ("Dialing " ++ phone) None)].
Proof.
  destruct (shipped_buttons Sample.engine
              [Navigate Sample.cardiac; Settle 0]
              (More.after simulateRouteCalculation
                 [Navigate Sample.cardiac; Settle 0])
              (RouteInfo.make "route2" (nth_error SIMULATED_HOSPITALS 1)
                 "4.1 km" "10 mins" (Some "Moderate traffic") false)
              eq_refl (or_intror (or_introl eq_refl)))
    as (h & phone & Hh & Hp & Hc & _).
  exists h, phone. repeat split; assumption.
Defined.

Lemma later_rejection_stays_visible_witness :
  exists w',
    run Sample.engine simulateRouteCalculation
      (More.after simulateRouteCalculation [Navigate Sample.cardiac])
      [Navigate Sample.untyped; Settle 0] = Some w' /\
    render (page w') = ErrorScreen typeMissing /\
    routes (page w') = predefinedRoutes.
Proof.
  destruct (later_rejection_stays_visible Sample.engine
              simulateRouteCalculation
              (More.after simulateRouteCalculation [Navigate Sample.cardiac])
              Sample.untyped 0%nat
              (mkPromise 1500 (Fulfilled predefinedRoutes)) []
              predefinedRoutes eq_refl eq_refl eq_refl)
    as (w' & Hr & Hv & Hs & _).
  - discriminate.
  - exists w'. repeat split; assumption.
Defined.

End MoreSamples.
